(** * crypto_montecarlo_forecast: parameter estimation and GBM path simulation

    A shallow embedding of [src/crypto_forecast.py].

    - [fetch_crypto_data] is embedded from line 38 on, i.e. from the point
      where the column [df['close']] of closing prices is available; the
      exchange access above it is input/output and is not modelled.
    - [simulate_crypto_prices] is embedded whole.  The process-wide numpy
      generator it draws from is made explicit as a state that is threaded
      through the call.
    - The debugging [print] of line 43 writes to the standard output only
      and is left out.

    pandas and numpy are libraries outside the repository: the operations
    the program calls ([pct_change], [dropna], [mean], [std],
    [np.random.normal], [np.median], [np.percentile], array indexing) are
    modelled after what these libraries compute.

    The arithmetic of the program is kept abstract behind the class
    [Arith], so that one embedding can be read in exact real arithmetic
    (instance [R_Arith]) and in IEEE binary64 (instance [binary64_Arith]). *)

From Stdlib Require Import ZArith String List Bool Lia Permutation Sorted.
From Stdlib Require Import Reals Lra.
From Stdlib Require Import Floats.
From Stdlib Require DecimalString.
Import ListNotations.

Local Open Scope string_scope.
Local Open Scope list_scope.

(** ** Python exceptions and the two effects of the program *)

Module Py.

(** An exception object: the name of its class and [str(e)]. *)
Record exn : Type := Exn { cls : string; msg : string }.

Definition Exception (m : string) : exn := Exn "Exception" m.
Definition ValueError (m : string) : exn := Exn "ValueError" m.
Definition IndexError (m : string) : exn := Exn "IndexError" m.

(** The outcome of a call: a value, or a raised exception. *)
Inductive result (A : Type) : Type :=
| Ok (a : A)
| Raise (e : exn).
Arguments Ok {A} a.
Arguments Raise {A} e.

Definition bindr {A B} (r : result A) (k : A -> result B) : result B :=
  match r with
  | Ok a => k a
  | Raise e => Raise e
  end.

(** [try: body except Exception as e: raise handler(e)] for a body without
    other effects. *)
Definition try_exceptr {A} (handler : exn -> exn) (body : result A)
  : result A :=
  match body with
  | Ok a => Ok a
  | Raise e => Raise (handler e)
  end.

(** Computations that read and advance a state [G] (the global generator)
    and may raise. *)
Definition M (G A : Type) : Type := G -> result A * G.

Definition ret {G A} (a : A) : M G A := fun g => (Ok a, g).

Definition bind {G A B} (c : M G A) (k : A -> M G B) : M G B :=
  fun g =>
    match c g with
    | (Ok a, g') => k a g'
    | (Raise e, g') => (Raise e, g')
    end.

Definition lift {G A} (r : result A) : M G A := fun g => (r, g).

Definition try_except {G A} (handler : exn -> exn) (body : M G A)
  : M G A :=
  fun g =>
    match body g with
    | (Ok a, g') => (Ok a, g')
    | (Raise e, g') => (Raise (handler e), g')
    end.

End Py.

Import Py.

Notation "x <- c ;; k" := (Py.bind c (fun x => k))
  (at level 61, c at next level, right associativity).

(** ** The arithmetic the program relies on *)

(** Python floats with the operations the program and numpy apply to
    them.  [fsignbit] is [np.signbit]; [fstr] is [str(x)], used only in
    messages. *)
Class Arith (F : Type) : Type := {
  of_int : Z -> F;
  fadd : F -> F -> F;
  fsub : F -> F -> F;
  fmul : F -> F -> F;
  fdiv : F -> F -> F;
  fsqrt : F -> F;
  fle : F -> F -> bool;
  flt : F -> F -> bool;
  fsignbit : F -> bool;
  fisnan : F -> bool;
  fstr : F -> string
}.

(** [np.exp] and [np.floor], which numpy adds to the basic operations. *)
Class Libm (F : Type) : Type := {
  np_exp : F -> F;
  np_floor : F -> Z
}.

(** numpy's global [RandomState]: [gauss] returns one standard normal
    variate and the advanced state. *)
Class RandomState (F G : Type) : Type := {
  gauss : G -> F * G
}.

Declare Scope num_scope.
Delimit Scope num_scope with num.
Infix "+" := fadd : num_scope.
Infix "-" := fsub : num_scope.
Infix "*" := fmul : num_scope.
Infix "/" := fdiv : num_scope.

(** ** Constants of the module (lines 8-9) *)

Definition N_SIMS : Z := 10000.
Definition FORECAST_DAYS : Z := 30.

(** ** Parameter estimation: [fetch_crypto_data], lines 38-60 *)

Section Estimator.

Context {F : Type} `{Arith F}.

(** [sum] of a float array, left to right from zero. *)
Definition np_sum (l : list F) : F := fold_left fadd l (of_int 0).

Fixpoint pct_change_from (prev : F) (l : list F) : list F :=
  match l with
  | [] => []
  | x :: l' => (x / prev - of_int 1)%num :: pct_change_from x l'
  end.

(** [Series.pct_change()]: [data / data.shift(1) - 1].  The first entry has
    no predecessor and is missing ([None], pandas' NaN); the column is
    taken free of missing values, so no forward fill applies. *)
Definition pct_change (close : list F) : list (option F) :=
  match close with
  | [] => []
  | x :: l => None :: map Some (pct_change_from x l)
  end.

(** [Series.dropna()]: drops the missing entries and the NaN values. *)
Definition dropna (s : list (option F)) : list F :=
  flat_map (fun o =>
              match o with
              | Some v => if fisnan v then [] else [v]
              | None => []
              end) s.

(** [Series.mean()]: sum over count. *)
Definition series_mean (s : list F) : F :=
  (np_sum s / of_int (Z.of_nat (length s)))%num.

(** [Series.std()], pandas' default [ddof=1]:
    [sqrt(sum((avg - x)**2) / (count - 1))]. *)
Definition series_var (s : list F) : F :=
  let avg := series_mean s in
  (np_sum (map (fun x => (avg - x) * (avg - x)) s)
   / of_int (Z.of_nat (length s) - 1))%num.

Definition series_std (s : list F) : F := fsqrt (series_var s).

(** [df['close'].iloc[-1]] *)
Definition iloc_last (close : list F) : result F :=
  match close with
  | [] => Raise (IndexError "single positional indexer is out-of-bounds")
  | x :: l => Ok (last l x)
  end.

Definition fetch_crypto_data (ticker : string) (close : list F)
  : result (F * F * F) :=
  try_exceptr
    (fun e => Exception ("Error in fetch_crypto_data for " ++ ticker
                         ++ ": " ++ msg e))
    (let daily_returns := dropna (pct_change close) in
     if (length daily_returns <? 2)%nat then
       Raise (ValueError ("Insufficient data points for " ++ ticker
                          ++ " to calculate returns"))
     else
       let mu := (series_mean daily_returns * of_int 365)%num in
       let sigma := (series_std daily_returns * fsqrt (of_int 365))%num in
       bindr (iloc_last close) (fun initial_price =>
       if fle initial_price (of_int 0) then
         Raise (ValueError ("Invalid initial price for " ++ ticker ++ ": "
                            ++ fstr initial_price))
       else if fisnan mu || fisnan sigma then
         Raise (ValueError ("NaN detected in mu (" ++ fstr mu
                            ++ ") or sigma (" ++ fstr sigma ++ ") for "
                            ++ ticker))
       else Ok (initial_price, mu, sigma))).

End Estimator.

(** ** numpy arrays: the operations used by [simulate_crypto_prices] *)

(** A two-dimensional array is the list of its rows. *)
Definition ndarray2 (F : Type) : Type := list (list F).

Section Numpy.

Context {F : Type} `{Arith F} `{Libm F}.

(** [np.zeros((rows, cols))] *)
Definition np_zeros (rows cols : nat) : ndarray2 F :=
  repeat (repeat (of_int 0) cols) rows.

Fixpoint set_nth (j : nat) (v : F) (row : list F) : list F :=
  match row, j with
  | [], _ => []
  | _ :: row', O => v :: row'
  | x :: row', S j' => x :: set_nth j' v row'
  end.

(** [a[:, j]], for a column [j] of the array. *)
Definition getitem_col (a : ndarray2 F) (j : nat) : list F :=
  map (fun row => nth j row (of_int 0)) a.

(** [a[:, j] = v] on an array with [ncols] columns: numpy checks the
    index even when the array has no row. *)
Definition setitem_col_scalar (a : ndarray2 F) (ncols j : nat) (v : F)
  : result (ndarray2 F) :=
  if (j <? ncols)%nat then Ok (map (set_nth j v) a)
  else Raise (IndexError "index 0 is out of bounds for axis 1 with size 0").

(** [a[:, j] = vs], one value per row, for a column [j] of the array. *)
Definition setitem_col (a : ndarray2 F) (j : nat) (vs : list F)
  : ndarray2 F :=
  map (fun rv => set_nth j (snd rv) (fst rv)) (combine a vs).

(** Elementwise product of two one-dimensional arrays of the same shape. *)
Definition np_multiply (xs ys : list F) : list F :=
  map (fun xy => (fst xy * snd xy)%num) (combine xs ys).

(** numpy's sort order on floats: NaN sorts last. *)
Definition np_lt (a b : F) : bool :=
  flt a b || (fisnan b && negb (fisnan a)).

Fixpoint np_insert (x : F) (l : list F) : list F :=
  match l with
  | [] => [x]
  | y :: l' => if np_lt x y then x :: y :: l' else y :: np_insert x l'
  end.

(** The sorted array; numpy partitions just enough to put the entries it
    reads at their sorted positions. *)
Definition np_sort (a : list F) : list F := fold_right np_insert [] a.

(** [arr[i]] with Python's negative indices, for [i] in range. *)
Definition getitem (arr : list F) (i : Z) : F :=
  nth (Z.to_nat (if (i <? 0)%Z then Z.of_nat (length arr) + i else i))
      arr (of_int 0).

(** [np.mean] of a one-dimensional array: sum over count. *)
Definition np_mean (a : list F) : F :=
  (np_sum a / of_int (Z.of_nat (length a)))%num.

(** [np.median]: the mean of the middle entry or of the two middle entries
    of the sorted array (of the empty slice for an empty array, which is
    [0/0]); a NaN in the array, sorted last, is returned as it is. *)
Definition np_median (a : list F) : F :=
  let sz := length a in
  let part := np_sort a in
  let index := (sz / 2)%nat in
  let middle :=
    if (sz mod 2 =? 1)%nat then firstn 1 (skipn index part)
    else firstn 2 (skipn (index - 1) part) in
  let rout := np_mean middle in
  if (0 <? sz)%nat && fisnan (getitem part (-1)) then getitem part (-1)
  else rout.

(** numpy's [_lerp]. *)
Definition lerp (a b t : F) : F :=
  let diff_b_a := (b - a)%num in
  if fle (of_int 1 / of_int 2)%num t
  then (b - diff_b_a * (of_int 1 - t))%num
  else (a + diff_b_a * t)%num.

(** numpy's [_quantile] for the method ['linear'] on a non-empty array:
    the virtual index, its two neighbours clipped to the array, and the
    interpolation between them; a NaN in the array, sorted last, is
    returned as it is. *)
Definition quantile_linear (a : list F) (quantile : F) : F :=
  let values_count := Z.of_nat (length a) in
  let virtual_index := (of_int (values_count - 1) * quantile)%num in
  let previous_index := np_floor virtual_index in
  let next_index := (previous_index + 1)%Z in
  let above := fle (of_int (values_count - 1)) virtual_index in
  let previous_index := if above then (-1)%Z else previous_index in
  let next_index := if above then (-1)%Z else next_index in
  let below := flt virtual_index (of_int 0) in
  let previous_index := if below then 0%Z else previous_index in
  let next_index := if below then 0%Z else next_index in
  let arr := np_sort a in
  let previous := getitem arr previous_index in
  let next := getitem arr next_index in
  let gamma := (virtual_index - of_int previous_index)%num in
  let result := lerp previous next gamma in
  if fisnan (getitem arr (-1)) then getitem arr (-1) else result.

(** [np.percentile(a, q)] with the default method, ['linear']; on an
    empty array the read of [arr[-1]] raises. *)
Definition np_percentile (a : list F) (q : F) : result F :=
  match a with
  | [] => Raise (IndexError
                   "index -1 is out of bounds for axis 0 with size 0")
  | _ :: _ => Ok (quantile_linear a (q / of_int 100)%num)
  end.

End Numpy.

(** ** Path simulation: [simulate_crypto_prices], lines 62-80 *)

Section Simulator.

Context {F G : Type} `{Arith F} `{Libm F} `{RandomState F G}.

(** One row of [np.random.normal(loc, scale, ...)]: each entry is
    [loc + scale * gauss()], drawn in order from the generator. *)
Fixpoint normal_row (cols : nat) (loc scale : F) (g : G) : list F * G :=
  match cols with
  | O => ([], g)
  | S c =>
      let (z, g1) := gauss g in
      let (zs, g2) := normal_row c loc scale g1 in
      ((loc + scale * z)%num :: zs, g2)
  end.

Fixpoint normal_rows (rows cols : nat) (loc scale : F) (g : G)
  : ndarray2 F * G :=
  match rows with
  | O => ([], g)
  | S r =>
      let (row, g1) := normal_row cols loc scale g in
      let (m, g2) := normal_rows r cols loc scale g1 in
      (row :: m, g2)
  end.

(** numpy's test of a parameter that must not be negative: a value with
    the sign bit set that is not NaN is refused. *)
Definition violates_non_negative (x : F) : bool :=
  negb (fisnan x) && fsignbit x.

(** [np.random.normal(loc, scale, (rows, cols))]: a negative scale and a
    negative dimension are refused; the array is filled row by row. *)
Definition np_random_normal (loc scale : F) (rows cols : Z)
  : M G (ndarray2 F) :=
  fun g =>
    if violates_non_negative scale then (Raise (ValueError "scale < 0"), g)
    else if (rows <? 0)%Z || (cols <? 0)%Z then
      (Raise (ValueError "negative dimensions are not allowed"), g)
    else
      let (m, g') :=
        normal_rows (Z.to_nat rows) (Z.to_nat cols) loc scale g in
      (Ok m, g').

(** Lines 68-71: the array of paths built from the array of draws. *)
Definition gbm_step (daily_returns price_paths : ndarray2 F) (t : nat)
  : ndarray2 F :=
  setitem_col price_paths t
    (np_multiply (getitem_col price_paths (t - 1))
                 (map np_exp (getitem_col daily_returns t))).

Definition gbm_paths (initial_price : F) (daily_returns : ndarray2 F)
           (sims days : nat) : result (ndarray2 F) :=
  let price_paths := np_zeros sims days in
  bindr (setitem_col_scalar price_paths days 0 initial_price)
        (fun price_paths =>
           Ok (fold_left (gbm_step daily_returns)
                         (seq 1 (days - 1)) price_paths)).

(** Lines 73-76: the statistics of the last column, [price_paths[:, -1]],
    of an array that has [days] columns, [days >= 1]. *)
Definition summarize (price_paths : ndarray2 F) (days : nat)
  : result (F * F * F) :=
  let final_prices := getitem_col price_paths (days - 1) in
  let median_price := np_median final_prices in
  bindr (np_percentile final_prices (of_int 5 / of_int 2)%num)
        (fun ci_lower =>
  bindr (np_percentile final_prices (of_int 195 / of_int 2)%num)
        (fun ci_upper =>
           Ok (median_price, ci_lower, ci_upper))).

Definition simulate_crypto_prices (initial_price mu sigma : F)
           (days sims : Z) : M G (ndarray2 F * F * F * F) :=
  try_except
    (fun e => Exception ("Error in simulate_crypto_prices: " ++ msg e))
    (let dt := (of_int 1 / of_int 365)%num in
     daily_returns <-
       np_random_normal (mu * dt)%num (sigma * fsqrt dt)%num sims days ;;
     price_paths <-
       lift (gbm_paths initial_price daily_returns
                       (Z.to_nat sims) (Z.to_nat days)) ;;
     stats <- lift (summarize price_paths (Z.to_nat days)) ;;
     let '(median_price, ci_lower, ci_upper) := stats in
     ret (price_paths, median_price, ci_lower, ci_upper)).

End Simulator.

(** ** Two readings of the arithmetic *)

(** Exact real arithmetic: no rounding, no NaN. *)
#[global] Instance R_Arith : Arith R := {
  of_int := IZR;
  fadd := Rplus;
  fsub := Rminus;
  fmul := Rmult;
  fdiv := Rdiv;
  fsqrt := R_sqrt.sqrt;
  fle := fun x y => if Rle_dec x y then true else false;
  flt := fun x y => if Rlt_dec x y then true else false;
  fsignbit := fun x => if Rlt_dec x 0 then true else false;
  fisnan := fun _ => false;
  fstr := fun _ => "<float>"
}.

#[global] Instance R_Libm : Libm R := {
  np_exp := exp;
  np_floor := Int_part
}.

(** IEEE 754 binary64, Python's [float]. *)
Definition binary64_of_int (z : Z) : float :=
  SF2Prim (binary_normalize prec emax z 0 false).

#[global] Instance binary64_Arith : Arith float := {
  of_int := binary64_of_int;
  fadd := PrimFloat.add;
  fsub := PrimFloat.sub;
  fmul := PrimFloat.mul;
  fdiv := PrimFloat.div;
  fsqrt := PrimFloat.sqrt;
  fle := PrimFloat.leb;
  flt := PrimFloat.ltb;
  fsignbit := PrimFloat.get_sign;
  fisnan := PrimFloat.is_nan;
  fstr := fun _ => "<float>"
}.

(** A generator for examples: the state is the tape of the variates still
    to be delivered (zeros once the tape is used up). *)
#[global] Instance tape_RandomState : RandomState R (list R) := {
  gauss := fun tape => (hd 0%R tape, tl tape)
}.

(** ** Vocabulary of the statements *)

Section Vocabulary.

Context {F G : Type} `{Arith F} `{Libm F} `{RandomState F G}.

(** The generator state after [k] variates have been drawn. *)
Fixpoint advance (k : nat) (g : G) : G :=
  match k with
  | O => g
  | S k' => advance k' (snd (gauss g))
  end.

(** The [k]-th standard normal variate drawn from state [g], from 0. *)
Definition variate (g : G) (k : nat) : F := fst (gauss (advance k g)).

(** The normal draw [Z[i][t]] of an array with [days] columns filled from
    state [g]: mean [loc], standard deviation [scale]. *)
Definition normal_draw (loc scale : F) (g : G) (days i t : nat) : F :=
  (loc + scale * variate g (i * days + t))%num.

(** The array of paths of an outcome, if the call returned. *)
Definition ensemble_of (r : result (ndarray2 F * F * F * F) * G)
  : option (ndarray2 F) :=
  match fst r with
  | Ok (price_paths, _, _, _) => Some price_paths
  | Raise _ => None
  end.

(** One step of the loop of lines 70-71, seen on one row. *)
Definition row_step (zrow prow : list F) (t : nat) : list F :=
  set_nth t (nth (t - 1) prow (of_int 0) * np_exp (nth t zrow (of_int 0)))%num
          prow.

(** The row of a path after the days [1..k] of the loop. *)
Definition row_after (zrow : list F) (p : F) (days k : nat) : list F :=
  fold_left (row_step zrow) (seq 1 k)
            (set_nth 0 p (repeat (of_int 0) days)).

(** The time step, [dt = 1 / 365], and the two parameters of the draw. *)
Definition dt : F := (of_int 1 / of_int 365)%num.
Definition draw_loc (mu : F) : F := (mu * dt)%num.
Definition draw_scale (sigma : F) : F := (sigma * fsqrt dt)%num.

(** The array of draws and the array of paths of a call that starts in
    state [g]. *)
Definition draws_of (mu sigma : F) (sims days : nat) (g : G) : ndarray2 F :=
  map (fun i =>
         map (normal_draw (draw_loc mu) (draw_scale sigma) g days i)
             (seq 0 days))
      (seq 0 sims).

Definition paths_of (initial_price mu sigma : F) (sims days : nat) (g : G)
  : ndarray2 F :=
  fold_left (gbm_step (draws_of mu sigma sims days g))
            (seq 1 (days - 1))
            (map (set_nth 0 initial_price) (np_zeros sims days)).

End Vocabulary.

(** The exception that leaves [fetch_crypto_data] when the guard of line
    39 finds fewer than two returns. *)
Definition insufficient_data (ticker : string) : exn :=
  Exception ("Error in fetch_crypto_data for " ++ ticker ++ ": "
             ++ "Insufficient data points for " ++ ticker
             ++ " to calculate returns").

(** The error kinds of the documented taxonomy. *)
Definition documented_kinds : list string :=
  ["InsufficientDataError"; "InvalidPriceError"; "NumericalError";
   "InvalidConfigError"; "EmptyEnsembleError"].

(** ** The statistics of the specification, in exact arithmetic *)

Module Stats.

Local Open Scope R_scope.

Fixpoint Rsum (l : list R) : R :=
  match l with
  | [] => 0
  | x :: l' => x + Rsum l'
  end.

(** Arithmetic mean. *)
Definition mean (l : list R) : R := Rsum l / INR (length l).

(** Sample standard deviation (denominator [n - 1]). *)
Definition sample_stddev (l : list R) : R :=
  R_sqrt.sqrt (Rsum (map (fun x => (x - mean l) ^ 2) l)
               / (INR (length l) - 1)).




(** Median of the values in ascending order [s]: the middle value, or the
    mean of the two middle values. *)
Definition median (s : list R) : R :=
  let n := length s in
  if Nat.odd n then nth ((n - 1) / 2) s 0
  else (nth (n / 2 - 1) s 0 + nth (n / 2) s 0) / 2.

(** The [p]-th percentile of the values in ascending order [s], by linear
    interpolation between the two values that enclose the rank
    [h = (n - 1) * p / 100]. *)
Definition percentile_linear (s : list R) (p : R) : R :=
  let n := length s in
  let h := (INR n - 1) * (p / 100) in
  let k := Z.to_nat (Int_part h) in
  let lo := nth k s 0 in
  let hi := nth (Nat.min (k + 1) (n - 1)) s 0 in
  lo + (h - INR k) * (hi - lo).


End Stats.

(** ** The answer of the exchange: [fetch_crypto_data], lines 28-36 *)

(** One row of [fetch_ohlcv]: the time in milliseconds since the epoch
    and the five figures of the day. *)
Record candle (F : Type) : Type := Candle {
  candle_timestamp : Z;
  candle_open : F;
  candle_high : F;
  candle_low : F;
  candle_close : F;
  candle_volume : F
}.
Arguments Candle {F}.
Arguments candle_timestamp {F}.
Arguments candle_open {F}.
Arguments candle_high {F}.
Arguments candle_low {F}.
Arguments candle_close {F}.
Arguments candle_volume {F}.

Section Exchange.

Context {F : Type} `{Arith F}.

(** [df[df['timestamp'] <= pd.to_datetime(end_date)]['close']], with
    [end_date] in milliseconds since the epoch like the timestamps. *)
Definition close_until (end_date : Z) (ohlcv : list (candle F)) : list F :=
  map candle_close
      (filter (fun k => (candle_timestamp k <=? end_date)%Z) ohlcv).

(** [fetch_crypto_data] from the answer of [exchange.fetch_ohlcv] on: an
    exception of the exchange and the empty answer leave the function
    through the same handler as the failures of lines 38-58. *)
Definition fetch_crypto_data_ohlcv (ticker : string) (end_date : Z)
           (answer : result (list (candle F))) : result (F * F * F) :=
  bindr
    (try_exceptr
       (fun e => Exception ("Error in fetch_crypto_data for " ++ ticker
                            ++ ": " ++ msg e))
       (bindr answer (fun ohlcv =>
          match ohlcv with
          | [] => Raise (ValueError ("No data fetched for " ++ ticker))
          | _ :: _ => Ok (close_until end_date ohlcv)
          end)))
    (fetch_crypto_data ticker).

End Exchange.

(** ** The figure: [plot_crypto_forecast], lines 82-115 *)

(** A trace of the figure, as the data it carries: the days on the x
    axis (counted from [END_DATE]), the values, and the name in the
    legend if it has one.  Line styles, the layout and [fig.show()] are
    rendering and are left out. *)
Record scatter (F : Type) : Type := Scatter {
  scatter_x : list nat;
  scatter_y : list F;
  scatter_name : option string;
  scatter_fillcolor : option string
}.
Arguments Scatter {F}.
Arguments scatter_x {F}.
Arguments scatter_y {F}.
Arguments scatter_name {F}.
Arguments scatter_fillcolor {F}.

(** The trace without data, read where a figure has no trace. *)
Definition no_trace {F : Type} : scatter F := Scatter [] [] None None.

(** [str(n)] of a natural number. *)
Definition str_nat (n : nat) : string :=
  DecimalString.NilEmpty.string_of_uint (Nat.to_uint n).

Section Figure.

Context {F : Type} `{Arith F} `{Libm F}.

(** The fill colour of line 112, computed by Python from the hexadecimal
    colour of the asset; it fails on a colour that is not hexadecimal. *)
Variable fillcolor_of : string -> result string.

(** [pd.date_range(start=END_DATE, periods=FORECAST_DAYS)] *)
Definition dates : list nat := seq 0 (Z.to_nat FORECAST_DAYS).

(** [price_paths[i]] *)
Definition getitem_row (price_paths : ndarray2 F) (i : nat)
  : result (list F) :=
  match nth_error price_paths i with
  | Some row => Ok row
  | None =>
      Raise (IndexError ("index " ++ str_nat i
                         ++ " is out of bounds for axis 0 with size "
                         ++ str_nat (length price_paths)))
  end.

(** The trace of a path: no name, it is kept out of the legend. *)
Definition path_trace (row : list F) : scatter F :=
  Scatter dates row None None.

(** The loop of lines 86-94: one trace per index, in order. *)
Fixpoint path_traces (price_paths : ndarray2 F) (indices : list nat)
  : result (list (scatter F)) :=
  match indices with
  | [] => Ok []
  | i :: rest =>
      bindr (getitem_row price_paths i) (fun row =>
      bindr (path_traces price_paths rest) (fun traces =>
        Ok (path_trace row :: traces)))
  end.

(** The number of columns of an array that has a row. *)
Definition ncols (a : ndarray2 F) : nat := length (hd [] a).

(** [np.median(a, axis=0)] and [np.percentile(a, q, axis=0)] of an array
    that has a row: one value per column. *)
Definition np_median_axis0 (a : ndarray2 F) : list F :=
  map (fun j => np_median (getitem_col a j)) (seq 0 (ncols a)).

Fixpoint collect (rs : list (result F)) : result (list F) :=
  match rs with
  | [] => Ok []
  | r :: rs' =>
      bindr r (fun v => bindr (collect rs') (fun vs => Ok (v :: vs)))
  end.

Definition np_percentile_axis0 (a : ndarray2 F) (q : F) : result (list F) :=
  collect (map (fun j => np_percentile (getitem_col a j) q)
               (seq 0 (ncols a))).

Definition plot_crypto_forecast (price_paths : ndarray2 F)
           (crypto_name color : string) : result (list (scatter F)) :=
  bindr (path_traces price_paths
                     (seq 0 (Z.to_nat (Z.min 100 N_SIMS)))) (fun traces =>
  let median_path := np_median_axis0 price_paths in
  let median_trace :=
    Scatter dates median_path (Some (crypto_name ++ " Median")%string) None in
  let ci_dates := dates ++ rev dates in
  bindr (np_percentile_axis0 price_paths (of_int 195 / of_int 2)%num)
        (fun upper =>
  bindr (np_percentile_axis0 price_paths (of_int 5 / of_int 2)%num)
        (fun lower =>
  let ci_values := upper ++ rev lower in
  bindr (fillcolor_of color) (fun fillcolor =>
  Ok (traces
      ++ [median_trace;
          Scatter ci_dates ci_values (Some "95% CI") (Some fillcolor)]))))).

End Figure.

(** ** The driver: lines 132-159 *)

Definition COLOR_BTC : string := "#FF9900".
Definition COLOR_ETH : string := "#00B7EB".
Definition COLOR_SOL : string := "#00FFAA".
Definition COLOR_BNB : string := "#FFD700".

(** An entry of [crypto_data]: the key and the two fields of its value. *)
Record asset : Type := Asset {
  asset_name : string;
  asset_ticker : string;
  asset_color : string
}.

Definition crypto_data : list asset :=
  [Asset "BTC" "BTC/USDT" COLOR_BTC;
   Asset "ETH" "ETH/USDT" COLOR_ETH;
   Asset "SOL" "SOL/USDT" COLOR_SOL;
   Asset "BNB" "BNB/USDT" COLOR_BNB].

(** What the driver puts out for an asset: the forecast it prints (lines
    149-155, kept as the figures printed), the figure it shows, or the
    line [Error processing ...] of line 159 with [str(e)]. *)
Inductive output (F : Type) : Type :=
| Forecast (crypto : string)
           (initial_price med_price ci_low ci_high mu sigma : F)
| Figure (crypto : string) (traces : list (scatter F))
| ErrorProcessing (crypto : string) (message : string).
Arguments Forecast {F}.
Arguments Figure {F}.
Arguments ErrorProcessing {F}.

(** The asset an output is about. *)
Definition crypto_of {F : Type} (o : output F) : string :=
  match o with
  | Forecast crypto _ _ _ _ _ _ => crypto
  | Figure crypto _ => crypto
  | ErrorProcessing crypto _ => crypto
  end.

Section Driver.

Context {F G : Type} `{Arith F} `{Libm F} `{RandomState F G}.

(** The answer of the exchange to [fetch_ohlcv] for a ticker, the date
    [END_DATE] in milliseconds since the epoch, and the fill colour of a
    hexadecimal colour: what the driver takes from outside. *)
Variable fetch_ohlcv : string -> result (list (candle F)).
Variable end_date : Z.
Variable fillcolor_of : string -> result string.

(** The body of the loop, lines 141-159, for one asset. *)
Definition process (a : asset) (g : G) : list (output F) * G :=
  match fetch_crypto_data_ohlcv (asset_ticker a) end_date
                                (fetch_ohlcv (asset_ticker a)) with
  | Raise e => ([ErrorProcessing (asset_name a) (msg e)], g)
  | Ok (initial_price, mu, sigma) =>
      match simulate_crypto_prices initial_price mu sigma
                                   FORECAST_DAYS N_SIMS g with
      | (Raise e, g') => ([ErrorProcessing (asset_name a) (msg e)], g')
      | (Ok (price_paths, med_price, ci_low, ci_high), g') =>
          let report :=
            Forecast (asset_name a) initial_price med_price ci_low ci_high
                     mu sigma in
          match plot_crypto_forecast fillcolor_of price_paths
                                     (asset_name a) (asset_color a) with
          | Raise e =>
              ([report; ErrorProcessing (asset_name a) (msg e)], g')
          | Ok traces => ([report; Figure (asset_name a) traces], g')
          end
      end
  end.

(** The loop of line 140 over the entries, in their order. *)
Fixpoint process_all (assets : list asset) (g : G)
  : list (output F) * G :=
  match assets with
  | [] => ([], g)
  | a :: rest =>
      let (out, g1) := process a g in
      let (outs, g2) := process_all rest g1 in
      (out ++ outs, g2)
  end.

Definition main (g : G) : list (output F) * G := process_all crypto_data g.

End Driver.

(** * Lemmas *)

Section Generic.

Context {F G : Type} `{Arith F} `{Libm F} `{RandomState F G}.

Lemma advance_add (a b : nat) (g : G) :
  advance (a + b) g = advance b (advance a g).
Proof.
  revert g; induction a as [|a IH]; intros g; [reflexivity|].
  simpl. apply IH.
Qed.

Lemma normal_row_spec (c : nat) (loc scale : F) (g : G) :
  normal_row c loc scale g =
  (map (fun t => (loc + scale * variate g t)%num) (seq 0 c), advance c g).
Proof.
  revert g; induction c as [|c IH]; intros g; [reflexivity|].
  simpl. destruct (gauss g) as [z g1] eqn:Eg.
  rewrite IH. f_equal. f_equal.
  - unfold variate. simpl. rewrite Eg. reflexivity.
  - rewrite <- seq_shift, map_map. apply map_ext. intros t.
    unfold variate. simpl. rewrite Eg. reflexivity.
Qed.

Lemma normal_rows_spec (r c : nat) (loc scale : F) (g : G) :
  normal_rows r c loc scale g =
  (map (fun i => map (normal_draw loc scale g c i) (seq 0 c)) (seq 0 r),
   advance (r * c) g).
Proof.
  revert g; induction r as [|r IH]; intros g; [reflexivity|].
  simpl normal_rows. rewrite normal_row_spec, IH.
  f_equal.
  - simpl. f_equal.
    rewrite <- seq_shift, map_map. apply map_ext. intros i.
    apply map_ext. intros t. unfold normal_draw, variate.
    rewrite <- advance_add.
    replace (S i * c + t)%nat with (c + (i * c + t))%nat by (simpl; lia).
    reflexivity.
  - rewrite <- advance_add. f_equal.
Qed.

End Generic.

(** ** Arrays: index lemmas *)

Lemma nth_map_lt {A B : Type} (f : A -> B) (l : list A) (i : nat)
      (d : B) (d' : A) :
  (i < length l)%nat -> nth i (map f l) d = f (nth i l d').
Proof.
  intros Hi. rewrite (nth_indep (map f l) d (f d')).
  - apply map_nth.
  - rewrite length_map. exact Hi.
Qed.

Section ArrayLemmas.

Context {F : Type} `{Arith F} `{Libm F}.

Lemma length_set_nth (j : nat) (v : F) (row : list F) :
  length (set_nth j v row) = length row.
Proof.
  revert j; induction row as [|x row IH]; intros [|j]; simpl; auto.
Qed.

Lemma nth_set_nth_eq (j : nat) (v d : F) (row : list F) :
  (j < length row)%nat -> nth j (set_nth j v row) d = v.
Proof.
  revert j; induction row as [|x row IH]; intros [|j]; simpl; intros Hj;
    try lia; auto.
  apply IH. lia.
Qed.

Lemma nth_set_nth_neq (j k : nat) (v d : F) (row : list F) :
  j <> k -> nth k (set_nth j v row) d = nth k row d.
Proof.
  revert j k; induction row as [|x row IH]; intros [|j] [|k] Hjk; simpl;
    auto; try congruence.
Qed.

Lemma length_gbm_step (Z P : ndarray2 F) (t : nat) :
  length Z = length P -> length (gbm_step Z P t) = length P.
Proof.
  intros HZP. unfold gbm_step, setitem_col, np_multiply, getitem_col.
  rewrite !length_map, !length_combine, !length_map, !length_combine,
    !length_map.
  lia.
Qed.

Lemma nth_gbm_step (Z P : ndarray2 F) (t i : nat) :
  length Z = length P -> (i < length P)%nat ->
  nth i (gbm_step Z P t) [] = row_step (nth i Z []) (nth i P []) t.
Proof.
  intros HZP Hi. unfold gbm_step, setitem_col.
  set (vs := np_multiply _ _).
  assert (Hvs : length vs = length P).
  { unfold vs, np_multiply, getitem_col.
    rewrite length_map, length_combine, !length_map. lia. }
  rewrite (nth_map_lt _ _ _ _ ([], of_int 0))
    by (rewrite length_combine; lia).
  rewrite combine_nth by lia. simpl.
  unfold row_step. f_equal.
  unfold vs, np_multiply, getitem_col.
  rewrite (nth_map_lt _ _ _ _ (of_int 0, of_int 0))
    by (rewrite length_combine, !length_map; lia).
  rewrite combine_nth by (rewrite !length_map; lia). simpl.
  rewrite (nth_map_lt _ P _ _ []) by lia.
  rewrite (nth_map_lt np_exp _ _ _ (of_int 0)) by (rewrite length_map; lia).
  rewrite (nth_map_lt _ Z _ _ []) by lia.
  reflexivity.
Qed.

Lemma fold_gbm_step (Z : ndarray2 F) (ts : list nat) (P : ndarray2 F) :
  length Z = length P ->
  length (fold_left (gbm_step Z) ts P) = length P /\
  forall i, (i < length P)%nat ->
    nth i (fold_left (gbm_step Z) ts P) [] =
    fold_left (row_step (nth i Z [])) ts (nth i P []).
Proof.
  revert P; induction ts as [|t ts IH]; intros P HZP; simpl.
  - split; auto.
  - destruct (IH (gbm_step Z P t)) as [Hlen Hnth].
    { rewrite length_gbm_step; auto. }
    rewrite length_gbm_step in Hlen, Hnth by auto.
    split; [exact Hlen|].
    intros i Hi. rewrite Hnth by auto.
    rewrite nth_gbm_step by auto. reflexivity.
Qed.

Lemma row_after_S (zrow : list F) (p : F) (days k : nat) :
  row_after zrow p days (S k) =
  row_step zrow (row_after zrow p days k) (S k).
Proof.
  unfold row_after. rewrite seq_S, fold_left_app. reflexivity.
Qed.

(** The loop on one row: what it has established after day [k]. *)
Lemma row_loop (zrow : list F) (p : F) (days k : nat) :
  (1 <= days)%nat -> (k <= days - 1)%nat ->
  length (row_after zrow p days k) = days /\
  nth 0 (row_after zrow p days k) (of_int 0) = p /\
  forall t, (1 <= t <= k)%nat ->
    nth t (row_after zrow p days k) (of_int 0) =
    (nth (t - 1) (row_after zrow p days k) (of_int 0)
     * np_exp (nth t zrow (of_int 0)))%num.
Proof.
  intros Hd. induction k as [|k IH]; intros Hk.
  - unfold row_after. cbn [seq fold_left]. split; [|split].
    + rewrite length_set_nth, repeat_length. reflexivity.
    + apply nth_set_nth_eq. rewrite repeat_length. lia.
    + intros t Ht. lia.
  - destruct IH as (Hlen & H0' & Hrec); [lia|].
    rewrite row_after_S.
    set (row := row_after zrow p days k) in *.
    unfold row_step. replace (S k - 1)%nat with k by lia.
    split; [|split].
    + rewrite length_set_nth. exact Hlen.
    + rewrite nth_set_nth_neq by lia. exact H0'.
    + intros t Ht.
      destruct (Nat.eq_dec t (S k)) as [->|Hne].
      * rewrite nth_set_nth_eq by lia.
        replace (S k - 1)%nat with k by lia.
        rewrite nth_set_nth_neq by lia. reflexivity.
      * rewrite !nth_set_nth_neq by lia. apply Hrec. lia.
Qed.

End ArrayLemmas.

(** ** The call of [simulate_crypto_prices], step by step *)

Section SimulatorLemmas.

Context {F G : Type} `{Arith F} `{Libm F} `{RandomState F G}.

Lemma np_percentile_nonempty (a : list F) (q : F) :
  a <> [] -> exists v, np_percentile a q = Ok v.
Proof.
  destruct a as [|x a]; [congruence|]. intros _.
  eexists; reflexivity.
Qed.

Lemma summarize_nonempty (price_paths : ndarray2 F) (days : nat) :
  price_paths <> [] ->
  exists median_price ci_lower ci_upper,
    summarize price_paths days = Ok (median_price, ci_lower, ci_upper).
Proof.
  intros Hne. unfold summarize.
  assert (Hcol : getitem_col price_paths (days - 1) <> []).
  { unfold getitem_col. destruct price_paths; [congruence|discriminate]. }
  destruct (np_percentile_nonempty _ (of_int 5 / of_int 2)%num Hcol)
    as [lo ->].
  destruct (np_percentile_nonempty _ (of_int 195 / of_int 2)%num Hcol)
    as [hi ->].
  simpl. eauto.
Qed.

Lemma gbm_paths_zero_days (p : F) (Z : ndarray2 F) (sims : nat) :
  gbm_paths p Z sims 0 =
  Raise (IndexError "index 0 is out of bounds for axis 1 with size 0").
Proof.
  reflexivity.
Qed.

Lemma gbm_paths_ok (p : F) (Z : ndarray2 F) (sims days : nat) :
  (1 <= days)%nat ->
  gbm_paths p Z sims days =
  Ok (fold_left (gbm_step Z) (seq 1 (days - 1))
                (map (set_nth 0 p) (np_zeros sims days))).
Proof.
  intros Hd. unfold gbm_paths, setitem_col_scalar.
  destruct (Nat.ltb_spec 0 days) as [_|Hlt]; [reflexivity|lia].
Qed.

Lemma length_draws_of (mu sigma : F) (sims days : nat) (g : G) :
  length (draws_of mu sigma sims days g) = sims.
Proof. unfold draws_of. rewrite length_map, length_seq. reflexivity. Qed.

Lemma nth_draws_of (mu sigma : F) (sims days : nat) (g : G) (i t : nat) :
  (i < sims)%nat -> (t < days)%nat ->
  nth t (nth i (draws_of mu sigma sims days g) []) (of_int 0) =
  normal_draw (draw_loc mu) (draw_scale sigma) g days i t.
Proof.
  intros Hi Ht. unfold draws_of.
  rewrite (nth_map_lt _ _ _ _ 0%nat) by (rewrite length_seq; lia).
  rewrite (nth_map_lt _ _ _ _ 0%nat) by (rewrite length_seq; lia).
  rewrite !seq_nth by lia. reflexivity.
Qed.

Lemma length_paths_of (p mu sigma : F) (sims days : nat) (g : G) :
  length (paths_of p mu sigma sims days g) = sims.
Proof.
  unfold paths_of.
  destruct (fold_gbm_step (draws_of mu sigma sims days g)
              (seq 1 (days - 1))
              (map (set_nth 0 p) (np_zeros sims days))) as [Hlen _].
  - rewrite length_draws_of, length_map. unfold np_zeros.
    rewrite repeat_length. reflexivity.
  - rewrite Hlen, length_map. unfold np_zeros. apply repeat_length.
Qed.

Lemma nth_paths_of (p mu sigma : F) (sims days : nat) (g : G) (i : nat) :
  (i < sims)%nat ->
  nth i (paths_of p mu sigma sims days g) [] =
  row_after (nth i (draws_of mu sigma sims days g) []) p days (days - 1).
Proof.
  intros Hi. unfold paths_of.
  destruct (fold_gbm_step (draws_of mu sigma sims days g)
              (seq 1 (days - 1))
              (map (set_nth 0 p) (np_zeros sims days))) as [_ Hnth].
  - rewrite length_draws_of, length_map. unfold np_zeros.
    rewrite repeat_length. reflexivity.
  - rewrite Hnth by (rewrite length_map; unfold np_zeros;
                     rewrite repeat_length; exact Hi).
    unfold row_after. f_equal.
    rewrite (nth_map_lt _ _ _ _ [])
      by (unfold np_zeros; rewrite repeat_length; exact Hi).
    f_equal. unfold np_zeros. apply nth_repeat_lt. exact Hi.
Qed.

(** The entries of the array of paths: shape, first column, recurrence. *)
Lemma paths_of_entries (p mu sigma : F) (sims days : nat) (g : G) (i : nat) :
  (1 <= days)%nat -> (i < sims)%nat ->
  let row := nth i (paths_of p mu sigma sims days g) [] in
  length row = days /\
  nth 0 row (of_int 0) = p /\
  forall t, (1 <= t < days)%nat ->
    nth t row (of_int 0) =
    (nth (t - 1) row (of_int 0)
     * np_exp (normal_draw (draw_loc mu) (draw_scale sigma) g days i t))%num.
Proof.
  intros Hd Hi row. unfold row. rewrite nth_paths_of by exact Hi.
  destruct (row_loop (nth i (draws_of mu sigma sims days g) []) p days
              (days - 1) Hd (le_n _)) as (Hlen & H0' & Hrec).
  split; [exact Hlen|]. split; [exact H0'|].
  intros t Ht. rewrite Hrec by lia.
  rewrite nth_draws_of by lia. reflexivity.
Qed.

(** The scale is refused: the call fails before anything is drawn. *)
Lemma simulate_crypto_prices_scale_refused (p mu sigma : F) (days sims : Z)
      (g : G) :
  violates_non_negative (draw_scale sigma) = true ->
  simulate_crypto_prices p mu sigma days sims g =
  (Raise (Exception ("Error in simulate_crypto_prices: " ++ "scale < 0")), g).
Proof.
  intros Hscale.
  unfold simulate_crypto_prices, try_except, Py.bind, np_random_normal.
  fold dt. fold (draw_scale sigma). rewrite Hscale. reflexivity.
Qed.

(** A negative dimension: the call fails before anything is drawn. *)
Lemma simulate_crypto_prices_negative_dimension (p mu sigma : F)
      (days sims : Z) (g : G) :
  violates_non_negative (draw_scale sigma) = false ->
  (sims < 0)%Z \/ (days < 0)%Z ->
  simulate_crypto_prices p mu sigma days sims g =
  (Raise (Exception ("Error in simulate_crypto_prices: "
                     ++ "negative dimensions are not allowed")), g).
Proof.
  intros Hscale Hneg.
  unfold simulate_crypto_prices, try_except, Py.bind, np_random_normal.
  fold dt. fold (draw_scale sigma). rewrite Hscale.
  assert (Hdim : (sims <? 0)%Z || (days <? 0)%Z = true).
  { apply orb_true_iff. rewrite !Z.ltb_lt. exact Hneg. }
  rewrite Hdim. reflexivity.
Qed.

(** What a call does when numpy accepts the arguments of the draw. *)
Lemma simulate_crypto_prices_unfold (p mu sigma : F) (days sims : Z) (g : G) :
  violates_non_negative (draw_scale sigma) = false ->
  (0 <= sims)%Z -> (0 <= days)%Z ->
  simulate_crypto_prices p mu sigma days sims g =
  (try_exceptr
     (fun e => Exception ("Error in simulate_crypto_prices: " ++ msg e))
     (bindr (gbm_paths p (draws_of mu sigma (Z.to_nat sims) (Z.to_nat days) g)
                       (Z.to_nat sims) (Z.to_nat days))
            (fun price_paths =>
               bindr (summarize price_paths (Z.to_nat days))
                     (fun stats =>
                        let '(median_price, ci_lower, ci_upper) := stats in
                        Ok (price_paths, median_price, ci_lower, ci_upper)))),
   advance (Z.to_nat sims * Z.to_nat days) g).
Proof.
  intros Hscale Hs Hd.
  unfold simulate_crypto_prices, try_except, Py.bind, np_random_normal.
  fold dt. fold (draw_scale sigma). fold (draw_loc mu).
  rewrite Hscale.
  destruct (Z.ltb_spec sims 0) as [?|_]; [lia|].
  destruct (Z.ltb_spec days 0) as [?|_]; [lia|]. simpl orb. cbv iota.
  rewrite normal_rows_spec. fold (draws_of mu sigma (Z.to_nat sims)
                                           (Z.to_nat days) g).
  unfold lift.
  destruct (gbm_paths _ _ _ _) as [pp|e]; [|reflexivity].
  simpl. destruct (summarize pp _) as [[[m lo] hi]|e]; reflexivity.
Qed.

End SimulatorLemmas.

(** ** The sorted array in exact arithmetic *)

Section SortLemmas.

Local Open Scope R_scope.

Lemma np_lt_R (a b : R) : np_lt a b = if Rlt_dec a b then true else false.
Proof. unfold np_lt. simpl. destruct (Rlt_dec a b); reflexivity. Qed.

Lemma length_np_insert (x : R) (l : list R) :
  length (np_insert x l) = S (length l).
Proof.
  induction l as [|y l IH]; [reflexivity|].
  simpl np_insert. destruct (np_lt x y); simpl; congruence.
Qed.

Lemma length_np_sort (l : list R) : length (np_sort l) = length l.
Proof.
  induction l as [|x l IH]; [reflexivity|].
  simpl. rewrite length_np_insert. congruence.
Qed.

Lemma np_insert_perm (x : R) (l : list R) :
  Permutation (np_insert x l) (x :: l).
Proof.
  induction l as [|y l IH]; [apply Permutation_refl|].
  simpl np_insert. destruct (np_lt x y).
  - apply Permutation_refl.
  - eapply perm_trans; [apply perm_skip, IH|].
    apply perm_swap.
Qed.

Lemma np_sort_perm (l : list R) : Permutation (np_sort l) l.
Proof.
  induction l as [|x l IH]; [apply perm_nil|].
  simpl. eapply perm_trans; [apply np_insert_perm|].
  apply perm_skip, IH.
Qed.

Lemma np_insert_sorted (x : R) (l : list R) :
  StronglySorted Rle l -> StronglySorted Rle (np_insert x l).
Proof.
  induction 1 as [|y l Hs IH Hall].
  - repeat constructor.
  - simpl np_insert. rewrite np_lt_R. destruct (Rlt_dec x y) as [Hlt|Hge].
    + constructor; [constructor; assumption|].
      constructor; [lra|].
      eapply Forall_impl; [|exact Hall]. intros z Hz. simpl in Hz. lra.
    + constructor; [exact IH|].
      eapply Permutation_Forall;
        [apply Permutation_sym, np_insert_perm|].
      constructor; [lra|exact Hall].
Qed.

Lemma np_sort_sorted (l : list R) : StronglySorted Rle (np_sort l).
Proof.
  induction l as [|x l IH]; [constructor|].
  simpl. apply np_insert_sorted, IH.
Qed.



End SortLemmas.

(** ** numpy's statistics in exact arithmetic *)

Section StatsLemmas.

Local Open Scope R_scope.

Lemma fold_left_Rplus (l : list R) (a : R) :
  fold_left Rplus l a = a + Stats.Rsum l.
Proof.
  revert a; induction l as [|x l IH]; intros a; simpl; [lra|].
  rewrite IH. lra.
Qed.

Lemma np_sum_R (l : list R) : np_sum l = Stats.Rsum l.
Proof. unfold np_sum. simpl. rewrite fold_left_Rplus. lra. Qed.

Lemma of_int_of_nat (n : nat) : IZR (Z.of_nat n) = INR n.
Proof. symmetry. apply INR_IZR_INZ. Qed.

Lemma of_int_pred_nat (n : nat) : IZR (Z.of_nat n - 1) = INR n - 1.
Proof. rewrite minus_IZR, of_int_of_nat. reflexivity. Qed.

Lemma firstn1_skipn {A : Type} (l : list A) (k : nat) (d : A) :
  (k < length l)%nat -> firstn 1 (skipn k l) = [nth k l d].
Proof.
  revert k; induction l as [|x l IH]; intros [|k] Hk; simpl in *;
    try lia; auto.
  apply IH. lia.
Qed.

Lemma firstn2_skipn {A : Type} (l : list A) (k : nat) (d : A) :
  (S k < length l)%nat ->
  firstn 2 (skipn k l) = [nth k l d; nth (S k) l d].
Proof.
  revert k; induction l as [|x l IH]; intros [|k] Hk; simpl in *;
    try lia.
  - destruct l; simpl in *; [lia|reflexivity].
  - apply IH. lia.
Qed.

Lemma np_mean_1 (x : R) : np_mean [x] = x.
Proof. unfold np_mean. rewrite np_sum_R. simpl. field. Qed.

Lemma np_mean_2 (x y : R) : np_mean [x; y] = (x + y) / 2.
Proof. unfold np_mean. rewrite np_sum_R. simpl. field. Qed.

Lemma np_median_R (a : list R) :
  a <> [] -> np_median a = Stats.median (np_sort a).
Proof.
  intros Hne. unfold np_median, Stats.median.
  simpl fisnan. rewrite andb_false_r. rewrite length_np_sort.
  assert (Hn : (1 <= length a)%nat)
    by (destruct a; [congruence|simpl; lia]).
  pose proof (length_np_sort a) as Hs.
  pose proof (Nat.div_mod_eq (length a) 2) as Hdm.
  pose proof (Nat.mod_upper_bound (length a) 2 ltac:(lia)) as Hub.
  destruct (Nat.eqb_spec (length a mod 2) 1) as [Hodd|Heven].
  - assert (Ho : Nat.odd (length a) = true).
    { apply Nat.odd_spec. exists (length a / 2)%nat. lia. }
    rewrite Ho.
    rewrite (firstn1_skipn _ _ 0) by lia.
    rewrite np_mean_1.
    replace ((length a - 1) / 2)%nat with (length a / 2)%nat.
    + reflexivity.
    + apply Nat.div_unique with (r := 0%nat); lia.
  - assert (He : Nat.odd (length a) = false).
    { destruct (Nat.odd (length a)) eqn:E; [|reflexivity].
      apply Nat.odd_spec in E. destruct E as [m Hm].
      exfalso. apply Heven.
      rewrite Hm. rewrite Nat.add_comm, Nat.mul_comm.
      rewrite Nat.Div0.mod_add. reflexivity. }
    rewrite He.
    assert (H2 : (2 <= length a)%nat) by lia.
    replace (length a / 2)%nat with (S (length a / 2 - 1)) by lia.
    replace (S (length a / 2 - 1) - 1)%nat with (length a / 2 - 1)%nat
      by lia.
    rewrite (firstn2_skipn _ _ 0) by lia.
    apply np_mean_2.
Qed.

Lemma lerp_R (a b t : R) : lerp a b t = a + t * (b - a).
Proof.
  unfold lerp. simpl. destruct (Rle_dec (1 / 2) t); lra.
Qed.

Lemma Int_part_bounds (h : R) :
  0 <= h ->
  (0 <= Int_part h)%Z /\ IZR (Int_part h) <= h < IZR (Int_part h) + 1.
Proof.
  intros Hh. destruct (base_Int_part h) as [Hle Hgt].
  split; [|lra].
  assert (Hlt : IZR (-1) < IZR (Int_part h)) by lra.
  apply lt_IZR in Hlt. lia.
Qed.

Lemma np_percentile_R (a : list R) (q : R) :
  a <> [] -> 0 <= q <= 100 ->
  np_percentile a q = Ok (Stats.percentile_linear (np_sort a) q).
Proof.
  intros Hne Hq.
  assert (Hn : (1 <= length a)%nat)
    by (destruct a; [congruence|simpl; lia]).
  assert (Hp : np_percentile a q =
               Ok (quantile_linear a (q / of_int 100)%num))
    by (destruct a; [congruence|reflexivity]).
  rewrite Hp. clear Hp. f_equal.
  unfold quantile_linear, Stats.percentile_linear. rewrite length_np_sort.
  cbn [of_int fmul fdiv fsub fle flt np_floor fisnan R_Arith R_Libm].
  rewrite of_int_pred_nat.
  pose proof (length_np_sort a) as Hs.
  remember (length a) as n eqn:En.
  set (h := (INR n - 1) * (q / 100)).
  assert (Hn1 : 0 <= INR n - 1).
  { pose proof (le_INR 1 n Hn) as H1. change (INR 1) with 1 in H1. lra. }
  assert (Hh : 0 <= h <= INR n - 1).
  { unfold h. split; [apply Rmult_le_pos; lra|].
    assert (q / 100 <= 1) by lra. nra. }
  destruct (Int_part_bounds h (proj1 Hh)) as [Hz0 [Hzl Hzu]].
  rewrite !lerp_R.
  destruct (Rlt_dec h 0) as [Hneg|_]; [lra|].
  destruct (Rle_dec (INR n - 1) h) as [Habove|Hin].
  - (* the rank is the last index *)
    assert (Hh' : h = INR (n - 1)).
    { rewrite minus_INR by lia. change (INR 1) with 1. lra. }
    assert (Hk : Z.to_nat (Int_part h) = (n - 1)%nat).
    { rewrite Hh', Int_part_INR. apply Nat2Z.id. }
    rewrite Hk. rewrite Nat.min_r by lia.
    unfold getitem. change (-1 <? 0)%Z with true. cbv iota.
    cbn [of_int R_Arith]. rewrite Hs.
    replace (Z.to_nat (Z.of_nat n + -1)) with (n - 1)%nat by lia.
    lra.
  - (* the rank lies between two consecutive order statistics *)
    assert (Hzn : (Int_part h < Z.of_nat n - 1)%Z).
    { apply lt_IZR. rewrite of_int_pred_nat. lra. }
    unfold getitem.
    destruct (Z.ltb_spec (Int_part h) 0) as [?|_]; [lia|].
    destruct (Z.ltb_spec (Int_part h + 1) 0) as [?|_]; [lia|].
    rewrite Nat.min_l by lia.
    replace (Z.to_nat (Int_part h + 1)) with (Z.to_nat (Int_part h) + 1)%nat
      by lia.
    rewrite INR_IZR_INZ, Z2Nat.id by lia.
    cbn [of_int R_Arith]. reflexivity.
Qed.

End StatsLemmas.

(** ** The estimator, whatever the arithmetic *)

Section EstimatorLemmas.

Context {F : Type} `{Arith F}.

(** Every exception that leaves [fetch_crypto_data] has been wrapped. *)
Lemma fetch_crypto_data_raises (ticker : string) (close : list F) (e : exn) :
  fetch_crypto_data ticker close = Raise e ->
  exists inner,
    e = Exception ("Error in fetch_crypto_data for " ++ ticker ++ ": "
                   ++ msg inner).
Proof.
  unfold fetch_crypto_data, try_exceptr.
  destruct (if (length _ <? 2)%nat then _ else _) as [r|inner];
    [discriminate|].
  intros [= <-]. exists inner. reflexivity.
Qed.

(** The three guards that a returned triple has passed. *)
Lemma fetch_crypto_data_returns (ticker : string) (close : list F)
      (initial_price mu sigma : F) :
  fetch_crypto_data ticker close = Ok (initial_price, mu, sigma) ->
  (2 <= length (dropna (pct_change close)))%nat /\
  fle initial_price (of_int 0) = false /\
  fisnan mu = false /\ fisnan sigma = false.
Proof.
  unfold fetch_crypto_data, try_exceptr.
  destruct (Nat.ltb_spec (length (dropna (pct_change close))) 2)
    as [Hlt|Hge]; [discriminate|].
  destruct (iloc_last close) as [p|e]; simpl; [|discriminate].
  destruct (fle p (of_int 0)) eqn:Hp; [discriminate|].
  set (mu' := (series_mean _ * of_int 365)%num).
  set (sigma' := (series_std _ * fsqrt (of_int 365))%num).
  destruct (fisnan mu') eqn:Hmu; simpl; [discriminate|].
  destruct (fisnan sigma') eqn:Hsigma; simpl; [discriminate|].
  intros [= <- <- <-]. auto.
Qed.

(** Fewer than two returns: the guard of line 39 raises. *)
Lemma fetch_crypto_data_insufficient (ticker : string) (close : list F) :
  (length (dropna (pct_change close)) < 2)%nat ->
  fetch_crypto_data ticker close = Raise (insufficient_data ticker).
Proof.
  intros Hlt. unfold fetch_crypto_data.
  destruct (Nat.ltb_spec (length (dropna (pct_change close))) 2)
    as [_|Hge]; [reflexivity|lia].
Qed.

Lemma length_pct_change_from (x : F) (l : list F) :
  length (pct_change_from x l) = length l.
Proof.
  revert x; induction l as [|y l IH]; intros x; simpl; auto.
Qed.

End EstimatorLemmas.

(** ** The estimator in exact arithmetic *)

Section EstimatorExact.

Local Open Scope R_scope.

Lemma dropna_Some_R (l : list R) : dropna (map Some l) = l.
Proof. induction l as [|x l IH]; simpl; congruence. Qed.

Lemma dropna_pct_change_R (x : R) (l : list R) :
  dropna (pct_change (x :: l)) = pct_change_from x l.
Proof. unfold pct_change. simpl. apply dropna_Some_R. Qed.


Lemma series_mean_R (s : list R) : series_mean s = Stats.mean s.
Proof.
  unfold series_mean, Stats.mean. rewrite np_sum_R.
  cbn [fdiv of_int R_Arith]. rewrite of_int_of_nat. reflexivity.
Qed.

Lemma series_std_R (s : list R) : series_std s = Stats.sample_stddev s.
Proof.
  unfold series_std, series_var, Stats.sample_stddev.
  rewrite np_sum_R, series_mean_R.
  cbn [fdiv fsub fmul fsqrt of_int R_Arith]. rewrite of_int_pred_nat.
  do 3 f_equal. apply map_ext. intros x. ring.
Qed.

Lemma last_cons_indep (x d d' : R) (l : list R) :
  last (x :: l) d = last (x :: l) d'.
Proof.
  revert x; induction l as [|y l IH]; intros x; [reflexivity|].
  change (last (y :: l) d = last (y :: l) d'). apply IH.
Qed.

Lemma iloc_last_R (x : R) (l : list R) :
  iloc_last (x :: l) = Ok (last (x :: l) 0).
Proof.
  unfold iloc_last. f_equal.
  destruct l as [|y l]; [reflexivity|].
  change (last (y :: l) x = last (y :: l) 0). apply last_cons_indep.
Qed.

Lemma last_In (x : R) (l : list R) : In (last (x :: l) 0) (x :: l).
Proof.
  revert x; induction l as [|y l IH]; intros x; [left; reflexivity|].
  right. apply (IH y).
Qed.

(** With at least three prices and a positive last price the call
    returns the last price and the two annualised statistics. *)
Lemma fetch_crypto_data_R (ticker : string) (prices : list R) :
  (3 <= length prices)%nat -> 0 < last prices 0 ->
  fetch_crypto_data ticker prices =
  Ok (last prices 0,
      series_mean (dropna (pct_change prices)) * 365,
      series_std (dropna (pct_change prices)) * R_sqrt.sqrt 365).
Proof.
  intros Hlen Hlast. destruct prices as [|x l]; [simpl in Hlen; lia|].
  unfold fetch_crypto_data.
  rewrite dropna_pct_change_R, length_pct_change_from, iloc_last_R.
  simpl in Hlen.
  destruct (Nat.ltb_spec (length l) 2) as [?|_]; [lia|].
  cbn [bindr fle fisnan orb R_Arith of_int fmul fsqrt try_exceptr].
  destruct (Rle_dec (last (x :: l) 0) 0) as [Hle|_]; [lra|].
  reflexivity.
Qed.

End EstimatorExact.

(** ** Outcomes of [simulate_crypto_prices] *)

(** The three ways a call can go: the scale is refused, a dimension is
    negative, or the draw is made. *)
Ltac simulate_cases sigma days sims :=
  let Hscale := fresh "Hscale" in
  let Hs := fresh "Hs" in
  let Hd := fresh "Hd" in
  destruct (violates_non_negative (draw_scale sigma)) eqn:Hscale;
  [ rewrite !simulate_crypto_prices_scale_refused by exact Hscale
  | destruct (Z_lt_le_dec sims 0) as [Hs|Hs];
    [ rewrite !simulate_crypto_prices_negative_dimension by (auto; lia)
    | destruct (Z_lt_le_dec days 0) as [Hd|Hd];
      [ rewrite !simulate_crypto_prices_negative_dimension by (auto; lia)
      | rewrite !simulate_crypto_prices_unfold by (auto; lia) ] ] ].

Section SimulatorOutcomes.

Context {F G : Type} `{Arith F} `{Libm F} `{RandomState F G}.

Lemma paths_of_nonempty (p mu sigma : F) (sims days : nat) (g : G) :
  (1 <= sims)%nat -> paths_of p mu sigma sims days g <> [].
Proof.
  intros Hs Hnil.
  pose proof (length_paths_of p mu sigma sims days g) as Hlen.
  rewrite Hnil in Hlen. simpl in Hlen. lia.
Qed.

Lemma paths_of_no_path (p mu sigma : F) (days : nat) (g : G) :
  paths_of p mu sigma 0 days g = [].
Proof.
  apply length_zero_iff_nil. apply length_paths_of.
Qed.

(** A valid configuration and an accepted scale: the call returns the
    array of paths and its statistics, and has drawn [sims * days]
    variates. *)
Lemma simulate_crypto_prices_returns (p mu sigma : F) (days sims : Z)
      (g : G) :
  (1 <= days)%Z -> (1 <= sims)%Z ->
  violates_non_negative (draw_scale sigma) = false ->
  exists median_price ci_lower ci_upper,
    summarize (paths_of p mu sigma (Z.to_nat sims) (Z.to_nat days) g)
              (Z.to_nat days) = Ok (median_price, ci_lower, ci_upper) /\
    simulate_crypto_prices p mu sigma days sims g =
    (Ok (paths_of p mu sigma (Z.to_nat sims) (Z.to_nat days) g,
         median_price, ci_lower, ci_upper),
     advance (Z.to_nat sims * Z.to_nat days) g).
Proof.
  intros Hd Hs Hscale.
  destruct (summarize_nonempty
              (paths_of p mu sigma (Z.to_nat sims) (Z.to_nat days) g)
              (Z.to_nat days)) as (m & lo & hi & Hsum).
  { apply paths_of_nonempty. lia. }
  exists m, lo, hi. split; [exact Hsum|].
  rewrite simulate_crypto_prices_unfold by (auto; lia).
  rewrite gbm_paths_ok by lia. fold (paths_of p mu sigma (Z.to_nat sims)
                                              (Z.to_nat days) g).
  cbn [bindr]. rewrite Hsum. reflexivity.
Qed.

(** A call that returns has had a valid configuration, and returns the
    array of paths built from the draws. *)
Lemma simulate_crypto_prices_returned (p mu sigma : F) (days sims : Z)
      (g g' : G) (price_paths : ndarray2 F)
      (median_price ci_lower ci_upper : F) :
  simulate_crypto_prices p mu sigma days sims g =
  (Ok (price_paths, median_price, ci_lower, ci_upper), g') ->
  (1 <= days)%Z /\ (1 <= sims)%Z /\
  price_paths = paths_of p mu sigma (Z.to_nat sims) (Z.to_nat days) g.
Proof.
  intros Hcall.
  destruct (violates_non_negative (draw_scale sigma)) eqn:Hscale.
  { rewrite simulate_crypto_prices_scale_refused in Hcall by exact Hscale.
    discriminate. }
  destruct (Z_lt_le_dec sims 0) as [Hs|Hs].
  { rewrite simulate_crypto_prices_negative_dimension in Hcall by auto.
    discriminate. }
  destruct (Z_lt_le_dec days 0) as [Hd|Hd].
  { rewrite simulate_crypto_prices_negative_dimension in Hcall by auto.
    discriminate. }
  rewrite simulate_crypto_prices_unfold in Hcall by auto.
  destruct (Z.eq_dec days 0) as [->|Hd0]; [discriminate|].
  rewrite gbm_paths_ok in Hcall by lia.
  fold (paths_of p mu sigma (Z.to_nat sims) (Z.to_nat days) g) in Hcall.
  destruct (Z.eq_dec sims 0) as [->|Hs0].
  { change (Z.to_nat 0) with 0%nat in Hcall.
    rewrite paths_of_no_path in Hcall. discriminate. }
  cbn [bindr] in Hcall.
  destruct (summarize _ _) as [[[m lo] hi]|e]; [|discriminate].
  cbn [try_exceptr] in Hcall. injection Hcall as <- _ _ _ _.
  repeat split; lia.
Qed.

(** Every exception that leaves [simulate_crypto_prices] has been
    wrapped. *)
Lemma simulate_crypto_prices_raises (p mu sigma : F) (days sims : Z)
      (g g' : G) (e : exn) :
  simulate_crypto_prices p mu sigma days sims g = (Raise e, g') ->
  exists inner,
    e = Exception ("Error in simulate_crypto_prices: " ++ msg inner).
Proof.
  unfold simulate_crypto_prices, try_except.
  destruct (Py.bind _ _ g) as [[r|inner] g1]; [discriminate|].
  intros [= <- _]. exists inner. reflexivity.
Qed.

(** The array of draws reads the generator through its first
    [sims * days] variates only. *)
Lemma draws_of_ext (mu sigma : F) (sims days : nat) (g1 g2 : G) :
  (forall k, (k < sims * days)%nat -> variate g1 k = variate g2 k) ->
  draws_of mu sigma sims days g1 = draws_of mu sigma sims days g2.
Proof.
  intros Hv. unfold draws_of.
  apply map_ext_in. intros i Hi. apply in_seq in Hi.
  apply map_ext_in. intros t Ht. apply in_seq in Ht.
  unfold normal_draw. rewrite Hv; [reflexivity|]. nia.
Qed.

End SimulatorOutcomes.

(** ** The simulator in exact arithmetic *)

Section SimulatorExact.

Context {G : Type} `{RandomState R G}.

Local Open Scope R_scope.

Lemma dt_R : dt = 1 / 365.
Proof. reflexivity. Qed.

Lemma draw_scale_accepted (sigma : R) :
  0 <= sigma -> violates_non_negative (draw_scale sigma) = false.
Proof.
  intros Hs. unfold violates_non_negative, draw_scale.
  cbn [fsignbit fisnan fmul fsqrt negb andb R_Arith].
  destruct (Rlt_dec (sigma * R_sqrt.sqrt dt) 0) as [Hlt|_]; [|reflexivity].
  pose proof (sqrt_pos dt) as Hsq.
  pose proof (Rmult_le_pos _ _ Hs Hsq). lra.
Qed.

(** Every price on a path is positive when the first one is. *)
Lemma paths_of_positive (p mu sigma : R) (sims days : nat) (g : G)
      (i t : nat) :
  0 < p -> (i < sims)%nat -> (t < days)%nat ->
  0 < nth t (nth i (paths_of p mu sigma sims days g) []) 0.
Proof.
  intros Hp Hi Ht.
  destruct (paths_of_entries p mu sigma sims days g i ltac:(lia) Hi)
    as (_ & H0' & Hrec).
  cbn [of_int R_Arith fmul np_exp R_Libm] in H0', Hrec.
  induction t as [|t IH].
  - rewrite H0'. exact Hp.
  - rewrite Hrec by lia. replace (S t - 1)%nat with t by lia.
    apply Rmult_lt_0_compat; [apply IH; lia|apply exp_pos].
Qed.

Lemma paths_of_Forall_positive (p mu sigma : R) (sims days : nat) (g : G) :
  0 < p -> (1 <= days)%nat ->
  Forall (Forall (fun x => 0 < x)) (paths_of p mu sigma sims days g).
Proof.
  intros Hp Hd. apply Forall_forall. intros row Hrow.
  apply (In_nth _ _ []) in Hrow. destruct Hrow as (i & Hi & <-).
  rewrite length_paths_of in Hi.
  apply Forall_forall. intros x Hx.
  apply (In_nth _ _ 0) in Hx. destruct Hx as (t & Ht & <-).
  destruct (paths_of_entries p mu sigma sims days g i Hd Hi)
    as (Hlen & _).
  rewrite Hlen in Ht. apply paths_of_positive; assumption.
Qed.

(** Without drift and volatility every price equals the first one. *)
Lemma paths_of_constant_entry (p : R) (sims days : nat) (g : G) (i t : nat) :
  (i < sims)%nat -> (t < days)%nat ->
  nth t (nth i (paths_of p 0 0 sims days g) []) 0 = p.
Proof.
  intros Hi Ht.
  destruct (paths_of_entries p 0 0 sims days g i ltac:(lia) Hi)
    as (_ & H0' & Hrec).
  cbn [of_int R_Arith fmul np_exp R_Libm] in H0', Hrec.
  induction t as [|t IH].
  - exact H0'.
  - rewrite Hrec by lia. replace (S t - 1)%nat with t by lia.
    rewrite IH by lia.
    unfold normal_draw, draw_loc, draw_scale.
    cbn [fadd fmul R_Arith].
    replace (0 * dt + 0 * fsqrt dt * variate g (i * days + S t)) with 0
      by ring.
    rewrite exp_0. ring.
Qed.

Lemma paths_of_constant (p : R) (sims days : nat) (g : G) :
  (1 <= days)%nat ->
  paths_of p 0 0 sims days g = repeat (repeat p days) sims.
Proof.
  intros Hd. apply (nth_ext _ _ [] []).
  - rewrite length_paths_of, repeat_length. reflexivity.
  - intros i Hi. rewrite length_paths_of in Hi.
    rewrite nth_repeat_lt by exact Hi.
    destruct (paths_of_entries p 0 0 sims days g i Hd Hi) as (Hlen & _).
    apply (nth_ext _ _ 0 0).
    + rewrite repeat_length. exact Hlen.
    + intros t Ht. rewrite Hlen in Ht.
      rewrite nth_repeat_lt by exact Ht.
      apply paths_of_constant_entry; assumption.
Qed.

End SimulatorExact.

(** ** The statistics of a constant column *)

Section ConstantColumn.

Local Open Scope R_scope.

Lemma np_insert_repeat (v : R) (n : nat) :
  np_insert v (repeat v n) = repeat v (S n).
Proof.
  induction n as [|n IH]; [reflexivity|].
  cbn [repeat np_insert]. rewrite np_lt_R.
  destruct (Rlt_dec v v) as [Hlt|_]; [lra|].
  rewrite IH. reflexivity.
Qed.

Lemma np_sort_repeat (v : R) (n : nat) : np_sort (repeat v n) = repeat v n.
Proof.
  induction n as [|n IH]; [reflexivity|].
  cbn [repeat np_sort fold_right]. fold (np_sort (repeat v n)).
  rewrite IH. apply np_insert_repeat.
Qed.

Lemma median_repeat (v : R) (n : nat) :
  (1 <= n)%nat -> Stats.median (repeat v n) = v.
Proof.
  intros Hn. unfold Stats.median. rewrite repeat_length.
  pose proof (Nat.div_mod_eq n 2) as Hdm.
  pose proof (Nat.mod_upper_bound n 2 ltac:(lia)) as Hub.
  pose proof (Nat.div_mod_eq (n - 1) 2) as Hdm1.
  pose proof (Nat.mod_upper_bound (n - 1) 2 ltac:(lia)) as Hub1.
  destruct (Nat.odd n) eqn:Ho.
  - apply nth_repeat_lt. lia.
  - assert (H2 : (2 <= n)%nat).
    { destruct n as [|[|n]]; [lia|discriminate|lia]. }
    rewrite !nth_repeat_lt by lia. field.
Qed.

Lemma percentile_linear_repeat (v q : R) (n : nat) :
  (1 <= n)%nat -> 0 <= q <= 100 ->
  Stats.percentile_linear (repeat v n) q = v.
Proof.
  intros Hn Hq. unfold Stats.percentile_linear. rewrite repeat_length.
  set (h := (INR n - 1) * (q / 100)).
  assert (Hn1 : 0 <= INR n - 1).
  { pose proof (le_INR 1 n Hn) as H1. change (INR 1) with 1 in H1. lra. }
  assert (Hh : 0 <= h <= INR n - 1).
  { unfold h. split; [apply Rmult_le_pos; lra|].
    assert (q / 100 <= 1) by lra. nra. }
  destruct (Int_part_bounds h (proj1 Hh)) as [Hz0 [Hzl Hzu]].
  assert (Hzn : (Int_part h <= Z.of_nat n - 1)%Z).
  { apply le_IZR. rewrite of_int_pred_nat. lra. }
  rewrite !nth_repeat_lt by lia. ring.
Qed.

Lemma getitem_col_repeat (v : R) (sims days : nat) :
  (1 <= days)%nat ->
  getitem_col (repeat (repeat v days) sims) (days - 1) = repeat v sims.
Proof.
  intros Hd. unfold getitem_col.
  induction sims as [|s IH]; [reflexivity|].
  cbn [repeat map]. rewrite IH. f_equal.
  apply nth_repeat_lt. lia.
Qed.

Lemma summarize_constant (v : R) (sims days : nat) :
  (1 <= sims)%nat -> (1 <= days)%nat ->
  summarize (repeat (repeat v days) sims) days = Ok (v, v, v).
Proof.
  intros Hs Hd. unfold summarize.
  rewrite getitem_col_repeat by exact Hd.
  assert (Hne : repeat v sims <> [])
    by (destruct sims; [lia|discriminate]).
  rewrite np_median_R by exact Hne.
  cbn [fdiv of_int R_Arith].
  rewrite !np_percentile_R by (auto; lra).
  rewrite np_sort_repeat.
  rewrite median_repeat by exact Hs.
  rewrite !percentile_linear_repeat by (auto; lra).
  reflexivity.
Qed.

End ConstantColumn.

(** * The claims *)

(** No class name of the code is one of the documented kinds. *)
Ltac not_documented :=
  simpl; intros [E|[E|[E|[E|[E|[]]]]]]; discriminate.

Section ClaimsGeneric.

Context {F G : Type} `{Arith F} `{Libm F} `{RandomState F G}.

(** C1: for a configuration with at least one day and one path, and a
    scale that numpy accepts, [simulate_crypto_prices] returns an array
    with one row per path and one column per day; column 0 of every
    path is [initial_price], and on every path [i] and every day
    [1 <= t < days] the price is the price of the day before times
    [exp(Z[i][t])], where [Z[i][t]] is the normal draw of mean [mu * dt]
    and standard deviation [sigma * sqrt(dt)], [dt = 1/365]. *)
Theorem simulate_gbm_recurrence
        (initial_price mu sigma : F) (days sims : Z) (g : G) :
  (1 <= days)%Z -> (1 <= sims)%Z ->
  violates_non_negative (sigma * fsqrt dt)%num = false ->
  exists price_paths median_price ci_lower ci_upper,
    fst (simulate_crypto_prices initial_price mu sigma days sims g) =
    Ok (price_paths, median_price, ci_lower, ci_upper) /\
    length price_paths = Z.to_nat sims /\
    forall i, (i < Z.to_nat sims)%nat ->
      let path := nth i price_paths [] in
      length path = Z.to_nat days /\
      nth 0 path (of_int 0) = initial_price /\
      forall t, (1 <= t < Z.to_nat days)%nat ->
        nth t path (of_int 0) =
        (nth (t - 1) path (of_int 0)
         * np_exp (normal_draw (mu * dt) (sigma * fsqrt dt) g
                               (Z.to_nat days) i t))%num.
Proof.
  intros Hd Hs Hscale.
  destruct (simulate_crypto_prices_returns initial_price mu sigma days sims
              g Hd Hs Hscale) as (m & lo & hi & _ & Hcall).
  exists (paths_of initial_price mu sigma (Z.to_nat sims) (Z.to_nat days) g),
    m, lo, hi.
  split; [rewrite Hcall; reflexivity|].
  split; [apply length_paths_of|].
  intros i Hi. apply paths_of_entries; [lia|exact Hi].
Qed.

(** C3, as the code has it: [simulate_crypto_prices] takes no seed; what
    it returns is determined by its arguments and by the variates that
    the process-wide generator delivers.  Two calls with the same
    arguments whose generators deliver the same first [sims * days]
    variates have the same outcome. *)
Theorem simulate_determined_by_variates
        (initial_price mu sigma : F) (days sims : Z) (g1 g2 : G) :
  (forall k, (k < Z.to_nat sims * Z.to_nat days)%nat ->
             variate g1 k = variate g2 k) ->
  fst (simulate_crypto_prices initial_price mu sigma days sims g1) =
  fst (simulate_crypto_prices initial_price mu sigma days sims g2).
Proof.
  intros Hv. simulate_cases sigma days sims; try reflexivity.
  cbn [fst]. rewrite (draws_of_ext mu sigma _ _ g1 g2 Hv). reflexivity.
Qed.

(** C4, as the code has it: every failure of [fetch_crypto_data] and of
    [simulate_crypto_prices] leaves the function as the generic
    [Exception], which is none of the five documented kinds. *)
Theorem failures_raise_generic_exception
        (ticker : string) (close : list F)
        (initial_price mu sigma : F) (days sims : Z) (g g' : G) (e : exn) :
  fetch_crypto_data ticker close = Raise e \/
  simulate_crypto_prices initial_price mu sigma days sims g = (Raise e, g') ->
  cls e = "Exception" /\ ~ In (cls e) documented_kinds.
Proof.
  intros [Hf|Hs].
  - destruct (fetch_crypto_data_raises _ _ _ Hf) as [inner ->].
    split; [reflexivity|]. not_documented.
  - destruct (simulate_crypto_prices_raises _ _ _ _ _ _ _ _ Hs)
      as [inner ->].
    split; [reflexivity|]. not_documented.
Qed.

(** C5, as the code has it: with [days < 1] or [sims < 1] the call
    raises the generic [Exception] that wraps numpy's error, not an
    [InvalidConfigError], and leaves the generator as it found it. *)
Theorem simulate_invalid_config_raises_generic
        (initial_price mu sigma : F) (days sims : Z) (g : G) :
  (days < 1)%Z \/ (sims < 1)%Z ->
  exists e,
    simulate_crypto_prices initial_price mu sigma days sims g =
    (Raise e, g) /\
    cls e = "Exception".
Proof.
  intros Hbad. simulate_cases sigma days sims.
  - eexists. split; reflexivity.
  - eexists. split; reflexivity.
  - eexists. split; reflexivity.
  - assert (Hz : (Z.to_nat sims * Z.to_nat days = 0)%nat) by nia.
    rewrite Hz. cbn [advance].
    destruct (Z.eq_dec days 0) as [->|Hd0].
    + (* no column: the write of column 0 fails *)
      rewrite gbm_paths_zero_days. eexists. split; reflexivity.
    + (* no path: the percentile of the empty last column fails *)
      assert (Hs0 : sims = 0%Z) by lia. subst sims.
      rewrite gbm_paths_ok by lia.
      change (Z.to_nat 0) with 0%nat.
      fold (paths_of initial_price mu sigma 0 (Z.to_nat days) g).
      rewrite paths_of_no_path. eexists. split; reflexivity.
Qed.


End ClaimsGeneric.

Section ClaimsExact.

Local Open Scope R_scope.



Lemma Rsum_repeat_0 (n : nat) : Stats.Rsum (repeat 0 n) = 0.
Proof. induction n as [|n IH]; simpl; [reflexivity|]. rewrite IH. lra. Qed.

Lemma pct_change_from_constant (c : R) (n : nat) :
  c <> 0 -> pct_change_from c (repeat c n) = repeat 0 n.
Proof.
  intros Hc. induction n as [|n IH]; [reflexivity|].
  cbn [repeat pct_change_from]. rewrite IH. f_equal.
  cbn [fdiv fsub of_int R_Arith]. field. exact Hc.
Qed.

Lemma last_repeat (c d : R) (n : nat) :
  (1 <= n)%nat -> last (repeat c n) d = c.
Proof.
  induction n as [|n IH]; [lia|]. intros _.
  destruct n as [|n]; [reflexivity|].
  change (last (repeat c (S (S n))) d) with (last (repeat c (S n)) d).
  apply IH. lia.
Qed.



(** C8: a constant series of at least three prices of positive value
    is accepted, and both the drift and the volatility are zero (exact
    arithmetic; the series 100, 100, 100, 100 is evaluated in binary64
    further down). *)
Theorem estimate_constant_series (ticker : string) (c : R) (n : nat) :
  (3 <= n)%nat -> 0 < c ->
  fetch_crypto_data ticker (repeat c n) = Ok (c, 0, 0).
Proof.
  intros Hn Hc.
  rewrite fetch_crypto_data_R;
    [|rewrite repeat_length; exact Hn
     |rewrite last_repeat by lia; exact Hc].
  rewrite last_repeat by lia.
  destruct n as [|n]; [lia|].
  change (repeat c (S n)) with (c :: repeat c n).
  rewrite dropna_pct_change_R, pct_change_from_constant by lra.
  rewrite series_mean_R, series_std_R.
  unfold Stats.sample_stddev, Stats.mean.
  rewrite Rsum_repeat_0, repeat_length.
  replace (map (fun x => (x - 0 / INR n) ^ 2) (repeat 0 n))
    with (repeat 0 n).
  - rewrite Rsum_repeat_0.
    replace (0 / (INR n - 1)) with 0 by (unfold Rdiv; ring).
    rewrite sqrt_0.
    replace (0 / INR n * 365) with 0 by (unfold Rdiv; ring).
    replace (0 * R_sqrt.sqrt 365) with 0 by ring.
    reflexivity.
  - rewrite map_repeat. f_equal. unfold Rdiv. ring.
Qed.

End ClaimsExact.

Section ClaimsExactSimulator.

Context {G : Type} `{RandomState R G}.

Local Open Scope R_scope.

(** C9: with [initial_price = 100], [mu = 0], [sigma = 0], 30 days and
    1000 paths, every entry of the array returned is exactly 100,
    whatever the generator delivers, and so are the three statistics
    (exact arithmetic). *)
Theorem simulate_zero_drift_zero_volatility (g : G) :
  fst (simulate_crypto_prices 100 0 0 30 1000 g) =
  Ok (repeat (repeat 100 30%nat) 1000%nat, 100, 100, 100).
Proof.
  destruct (simulate_crypto_prices_returns 100 0 0 30 1000 g)
    as (m & lo & hi & Hsum & Hcall); [lia|lia| |].
  { apply draw_scale_accepted. lra. }
  rewrite Hcall. cbn [fst].
  rewrite paths_of_constant in Hsum |- *
    by (change (Z.to_nat 30) with 30%nat; lia).
  rewrite summarize_constant in Hsum
    by (change (Z.to_nat 30) with 30%nat;
        change (Z.to_nat 1000) with 1000%nat; lia).
  injection Hsum as <- <- <-.
  reflexivity.
Qed.


End ClaimsExactSimulator.

(** * The claims at concrete inputs *)

Section Concrete.

Local Open Scope R_scope.

(** C1 at [initial_price = 100], [mu = 1/2], [sigma = 4/5], three days
    and two paths, on a tape of six variates. *)
Lemma simulate_gbm_recurrence_witness :
  exists price_paths median_price ci_lower ci_upper,
    fst (simulate_crypto_prices 100 (1 / 2) (4 / 5) 3 2
                                [3 / 10; -1 / 5; 1; 0; -3 / 2; 1 / 2]) =
    Ok (price_paths, median_price, ci_lower, ci_upper) /\
    length price_paths = Z.to_nat 2 /\
    forall i, (i < Z.to_nat 2)%nat ->
      let path := nth i price_paths [] in
      length path = Z.to_nat 3 /\
      nth 0 path 0 = 100 /\
      forall t, (1 <= t < Z.to_nat 3)%nat ->
        nth t path 0 =
        nth (t - 1) path 0
        * exp (normal_draw (1 / 2 * dt) (4 / 5 * R_sqrt.sqrt dt)
                           [3 / 10; -1 / 5; 1; 0; -3 / 2; 1 / 2]
                           (Z.to_nat 3) i t).
Proof.
  refine (simulate_gbm_recurrence (F := R) (G := list R)
            100 (1 / 2) (4 / 5) 3 2 [3 / 10; -1 / 5; 1; 0; -3 / 2; 1 / 2]
            _ _ _).
  - lia.
  - lia.
  - apply draw_scale_accepted. lra.
Defined.



(** C3 fails: two calls in a row with the same arguments, the second
    from the generator state that the first has left, return different
    arrays; no argument of the function fixes the variates.  On the tape
    0, 1, 2, 3 the first call ends its path at [100 * exp(sqrt(dt))], the
    second at [100 * exp(3 * sqrt(dt))]. *)
Lemma simulate_twice_differs :
  let first := simulate_crypto_prices 100 0 1 2 1 [0; 1; 2; 3] in
  let second := simulate_crypto_prices 100 0 1 2 1 (snd first) in
  ensemble_of first <> ensemble_of second.
Proof.
  intros first second. unfold second, first. clear first second.
  assert (Hscale : violates_non_negative (draw_scale 1) = false)
    by (apply draw_scale_accepted; lra).
  destruct (simulate_crypto_prices_returns 100 0 1 2 1 [0; 1; 2; 3]
              ltac:(lia) ltac:(lia) Hscale) as (m1 & l1 & h1 & _ & E1).
  rewrite E1. cbn [snd].
  change (Z.to_nat 1) with 1%nat. change (Z.to_nat 2) with 2%nat.
  change (advance (1 * 2) [0; 1; 2; 3]) with [2; 3].
  destruct (simulate_crypto_prices_returns 100 0 1 2 1 [2; 3]
              ltac:(lia) ltac:(lia) Hscale) as (m2 & l2 & h2 & _ & E2).
  rewrite E2. unfold ensemble_of. cbn [fst].
  change (Z.to_nat 1) with 1%nat. change (Z.to_nat 2) with 2%nat.
  intros Heq.
  assert (Hentry :
            nth 1 (nth 0 (paths_of 100 0 1 1 2 [0; 1; 2; 3]) []) 0 =
            nth 1 (nth 0 (paths_of 100 0 1 1 2 [2; 3]) []) 0).
  { exact (f_equal (fun o => match o with
                             | Some pp => nth 1 (nth 0 pp []) 0
                             | None => 0
                             end) Heq). }
  clear Heq.
  destruct (paths_of_entries 100 0 1 1 2 [0; 1; 2; 3] 0
              ltac:(lia) ltac:(lia)) as (_ & Ha0 & Ha).
  destruct (paths_of_entries 100 0 1 1 2 [2; 3] 0
              ltac:(lia) ltac:(lia)) as (_ & Hb0 & Hb).
  cbn [of_int fmul np_exp R_Arith R_Libm] in Ha0, Ha, Hb0, Hb.
  rewrite (Ha 1%nat), (Hb 1%nat) in Hentry by lia.
  change (1 - 1)%nat with 0%nat in Hentry.
  rewrite Ha0, Hb0 in Hentry.
  apply Rmult_eq_reg_l in Hentry; [|lra].
  apply exp_inv in Hentry.
  unfold normal_draw, variate, draw_loc, draw_scale in Hentry.
  cbn [fadd fmul fsqrt R_Arith advance gauss tape_RandomState fst snd
       hd tl Nat.mul Nat.add] in Hentry.
  assert (Hpos : 0 < R_sqrt.sqrt dt).
  { apply sqrt_lt_R0. rewrite dt_R. lra. }
  nra.
Qed.

(** C3 at two tapes that differ after the six variates the call reads. *)
Lemma simulate_determined_by_variates_witness :
  fst (simulate_crypto_prices 100 (1 / 2) (4 / 5) 3 2
                              [1; 2; 3; 4; 5; 6; 7]) =
  fst (simulate_crypto_prices 100 (1 / 2) (4 / 5) 3 2
                              [1; 2; 3; 4; 5; 6; 8]).
Proof.
  apply (simulate_determined_by_variates (F := R) (G := list R)
           100 (1 / 2) (4 / 5) 3 2
           [1; 2; 3; 4; 5; 6; 7] [1; 2; 3; 4; 5; 6; 8]).
  intros k Hk.
  do 6 (destruct k as [|k]; [reflexivity|]).
  simpl in Hk. lia.
Defined.

(** C4 fails on a series of one price: the exception raised is the
    generic [Exception], none of the five documented kinds. *)
Lemma estimate_one_price_generic_exception :
  exists e,
    fetch_crypto_data "BTC/USDT" [100%float] = Raise e /\
    e = insufficient_data "BTC/USDT" /\
    cls e = "Exception" /\
    ~ In (cls e) documented_kinds.
Proof.
  eexists. split; [vm_compute; reflexivity|].
  split; [reflexivity|]. split; [reflexivity|]. not_documented.
Qed.

(** C4 at the series of one price. *)
Lemma failures_raise_generic_exception_witness :
  cls (insufficient_data "BTC/USDT") = "Exception" /\
  ~ In (cls (insufficient_data "BTC/USDT")) documented_kinds.
Proof.
  apply (failures_raise_generic_exception (F := R) (G := list R)
           "BTC/USDT" [100] 100 0 0 30 1000 [] []).
  left. reflexivity.
Defined.

(** C5 fails with no day: the exception raised is numpy's index error
    wrapped in the generic [Exception], not an [InvalidConfigError]. *)
Lemma simulate_zero_days_not_invalid_config :
  exists e,
    simulate_crypto_prices 100 0 0 0 1000 [1; 2; 3] = (Raise e, [1; 2; 3]) /\
    e = Exception ("Error in simulate_crypto_prices: "
                   ++ "index 0 is out of bounds for axis 1 with size 0") /\
    cls e <> "InvalidConfigError".
Proof.
  eexists. split; [|split; [reflexivity|discriminate]].
  rewrite simulate_crypto_prices_unfold;
    [|apply draw_scale_accepted; lra|lia|lia].
  reflexivity.
Qed.

(** C5 at no day and 1000 paths. *)
Lemma simulate_invalid_config_raises_generic_witness :
  exists e,
    simulate_crypto_prices 100 0 0 0 1000 [1; 2; 3] = (Raise e, [1; 2; 3]) /\
    cls e = "Exception".
Proof.
  apply (simulate_invalid_config_raises_generic (F := R) (G := list R)
           100 0 0 0 1000 [1; 2; 3]).
  left. lia.
Defined.




(** C8 at four prices of 100, in exact arithmetic and in binary64. *)
Lemma estimate_constant_series_witness :
  fetch_crypto_data "BTC/USDT" (repeat 100 4) = Ok (100, 0, 0).
Proof.
  apply (estimate_constant_series "BTC/USDT" 100 4).
  - lia.
  - lra.
Defined.

Example estimate_constant_series_binary64 :
  fetch_crypto_data "BTC/USDT" [100; 100; 100; 100]%float =
  Ok (100, 0, 0)%float.
Proof. vm_compute. reflexivity. Qed.


End Concrete.

(** * Further properties *)

(** ** The estimator: guards and invariants *)

Section EstimatorGuards.

Context {F : Type} `{Arith F}.

Lemma length_dropna_le (s : list (option F)) :
  (length (dropna s) <= length s)%nat.
Proof.
  induction s as [|[v|] s IH]; simpl; try lia.
  destruct (fisnan v); simpl; lia.
Qed.

Lemma length_returns_le (close : list F) :
  (length (dropna (pct_change close)) <= length close - 1)%nat.
Proof.
  destruct close as [|x l]; [simpl; lia|].
  unfold pct_change.
  change (dropna (None :: map Some (pct_change_from x l)))
    with (dropna (map Some (pct_change_from x l))).
  pose proof (length_dropna_le (map Some (pct_change_from x l))) as Hle.
  rewrite length_map, length_pct_change_from in Hle. simpl. lia.
Qed.

(** X1: a series of fewer than three prices, the empty series included,
    has fewer than two returns whatever the arithmetic, and is refused by
    the guard of line 39. *)
Theorem estimate_short_series_raises (ticker : string) (close : list F) :
  (length close < 3)%nat ->
  fetch_crypto_data ticker close = Raise (insufficient_data ticker).
Proof.
  intros Hlen. apply fetch_crypto_data_insufficient.
  pose proof (length_returns_le close). lia.
Qed.

(** What a returned triple is made of. *)
Lemma fetch_crypto_data_returned (ticker : string) (close : list F)
      (initial_price mu sigma : F) :
  fetch_crypto_data ticker close = Ok (initial_price, mu, sigma) ->
  iloc_last close = Ok initial_price /\
  mu = (series_mean (dropna (pct_change close)) * of_int 365)%num /\
  sigma = (series_std (dropna (pct_change close)) * fsqrt (of_int 365))%num.
Proof.
  unfold fetch_crypto_data, try_exceptr.
  destruct (Nat.ltb_spec (length (dropna (pct_change close))) 2)
    as [Hlt|Hge]; [discriminate|].
  destruct (iloc_last close) as [p|e]; simpl; [|discriminate].
  destruct (fle p (of_int 0)); [discriminate|].
  destruct (fisnan _ || fisnan _); [discriminate|].
  intros [= <- <- <-]. auto.
Qed.

End EstimatorGuards.

Section EstimatorInvariants.

Local Open Scope R_scope.

Lemma last_map_cons (f : R -> R) (x : R) (l : list R) :
  last (map f (x :: l)) 0 = f (last (x :: l) 0).
Proof.
  revert x; induction l as [|y l IH]; intros x; [reflexivity|].
  change (last (map f (y :: l)) 0 = f (last (y :: l) 0)). apply IH.
Qed.

Lemma series_std_nonneg (s : list R) : 0 <= series_std s.
Proof. unfold series_std. cbn [fsqrt R_Arith]. apply sqrt_pos. Qed.


(** X3: whatever [fetch_crypto_data] returns keeps the invariants of the
    model parameters: the series had at least three prices, the price
    returned is its last price and is positive, and the volatility is
    not negative (exact arithmetic). *)
Theorem estimate_returns_valid_parameters
        (ticker : string) (prices : list R) (initial_price mu sigma : R) :
  fetch_crypto_data ticker prices = Ok (initial_price, mu, sigma) ->
  (3 <= length prices)%nat /\
  initial_price = last prices 0 /\
  0 < initial_price /\
  0 <= sigma.
Proof.
  intros Hcall.
  destruct (fetch_crypto_data_returns _ _ _ _ _ Hcall) as (Hlen & _).
  destruct prices as [|x l]; [simpl in Hlen; lia|].
  rewrite dropna_pct_change_R, length_pct_change_from in Hlen.
  assert (H3 : (3 <= length (x :: l))%nat) by (simpl; lia).
  destruct (fetch_crypto_data_returns _ _ _ _ _ Hcall) as (_ & Hpos & _).
  destruct (fetch_crypto_data_returned _ _ _ _ _ Hcall)
    as (Hlast & _ & Hsigma).
  rewrite iloc_last_R in Hlast.
  remember (last (x :: l) 0) as lastp eqn:El.
  injection Hlast as <-.
  cbn [fle of_int R_Arith] in Hpos. revert Hpos.
  destruct (Rle_dec lastp 0) as [?|Hgt]; [discriminate|].
  intros _.
  split; [exact H3|]. split; [reflexivity|]. split; [lra|].
  rewrite Hsigma. cbn [fmul fsqrt of_int R_Arith].
  apply Rmult_le_pos; [apply series_std_nonneg|apply sqrt_pos].
Qed.

Lemma pct_change_from_scale (k x : R) (l : list R) :
  0 < k -> 0 < x -> Forall (fun p => 0 < p) l ->
  pct_change_from (k * x) (map (Rmult k) l) = pct_change_from x l.
Proof.
  intros Hk Hx Hl. revert x Hx.
  induction Hl as [|y l Hy Hl IH]; intros x Hx; [reflexivity|].
  cbn [map pct_change_from]. rewrite (IH y Hy). f_equal.
  cbn [fdiv fsub of_int R_Arith]. field. split; lra.
Qed.

(** X4: the estimate does not depend on the unit of the prices: with all
    prices multiplied by a positive factor the drift and the volatility
    are the same and the price returned is multiplied by the factor
    (exact arithmetic). *)
Theorem estimate_scale_invariant (ticker : string) (k : R) (prices : list R) :
  0 < k -> (3 <= length prices)%nat -> Forall (fun p => 0 < p) prices ->
  exists mu sigma,
    fetch_crypto_data ticker prices = Ok (last prices 0, mu, sigma) /\
    fetch_crypto_data ticker (map (Rmult k) prices) =
    Ok (k * last prices 0, mu, sigma).
Proof.
  intros Hk Hlen Hpos.
  destruct prices as [|x l]; [simpl in Hlen; lia|].
  assert (Hlast : 0 < last (x :: l) 0).
  { rewrite Forall_forall in Hpos. apply Hpos, last_In. }
  do 2 eexists. split.
  - apply fetch_crypto_data_R; assumption.
  - rewrite fetch_crypto_data_R.
    + rewrite last_map_cons.
      cbn [map]. rewrite !dropna_pct_change_R.
      inversion Hpos as [|? ? Hx Hl]; subst.
      rewrite pct_change_from_scale by assumption. reflexivity.
    + rewrite length_map. exact Hlen.
    + rewrite last_map_cons. apply Rmult_lt_0_compat; assumption.
Qed.

End EstimatorInvariants.

(** ** The simulator: what a call reads and what it leaves *)

Section SimulatorDraws.

Context {F G : Type} `{Arith F} `{Libm F} `{RandomState F G}.

Lemma row_after_ext (z1 z2 : list F) (p : F) (days k : nat) :
  (forall t, (1 <= t <= k)%nat ->
             nth t z1 (of_int 0) = nth t z2 (of_int 0)) ->
  row_after z1 p days k = row_after z2 p days k.
Proof.
  induction k as [|k IH]; intros Hz; [reflexivity|].
  rewrite !row_after_S, IH by (intros t Ht; apply Hz; lia).
  unfold row_step. rewrite (Hz (S k)) by lia. reflexivity.
Qed.

Lemma paths_of_ext (p mu sigma : F) (sims days : nat) (g1 g2 : G) :
  (forall i t, (i < sims)%nat -> (1 <= t < days)%nat ->
               variate g1 (i * days + t) = variate g2 (i * days + t)) ->
  paths_of p mu sigma sims days g1 = paths_of p mu sigma sims days g2.
Proof.
  intros Hv. apply (nth_ext _ _ [] []).
  - rewrite !length_paths_of. reflexivity.
  - intros i Hi. rewrite length_paths_of in Hi.
    rewrite !nth_paths_of by exact Hi.
    apply row_after_ext. intros t Ht.
    destruct (Nat.eq_dec days 0) as [->|Hd]; [simpl in Ht; lia|].
    rewrite !nth_draws_of by lia.
    unfold normal_draw. rewrite Hv by lia. reflexivity.
Qed.

(** X5: a call that numpy accepts leaves the generator advanced by
    exactly [sims * days] variates, one per entry of the array of
    draws. *)
Theorem simulate_consumes_one_variate_per_entry
        (initial_price mu sigma : F) (days sims : Z) (g : G) :
  (1 <= days)%Z -> (1 <= sims)%Z ->
  violates_non_negative (sigma * fsqrt dt)%num = false ->
  snd (simulate_crypto_prices initial_price mu sigma days sims g) =
  advance (Z.to_nat sims * Z.to_nat days) g.
Proof.
  intros Hd Hs Hscale.
  destruct (simulate_crypto_prices_returns initial_price mu sigma days sims
              g Hd Hs Hscale) as (m & lo & hi & _ & Hcall).
  rewrite Hcall. reflexivity.
Qed.

(** X6: the draws of column 0 are made and never read: two generators
    that deliver the same variates at the positions [i * days + t] with
    [t >= 1] give the same outcome, whatever they deliver for column 0. *)
Theorem simulate_ignores_draws_of_first_column
        (initial_price mu sigma : F) (days sims : Z) (g1 g2 : G) :
  (forall i t, (i < Z.to_nat sims)%nat -> (1 <= t < Z.to_nat days)%nat ->
               variate g1 (i * Z.to_nat days + t) =
               variate g2 (i * Z.to_nat days + t)) ->
  fst (simulate_crypto_prices initial_price mu sigma days sims g1) =
  fst (simulate_crypto_prices initial_price mu sigma days sims g2).
Proof.
  intros Hv. simulate_cases sigma days sims; try reflexivity.
  cbn [fst].
  destruct (Z.eq_dec days 0) as [->|Hd0]; [reflexivity|].
  rewrite !gbm_paths_ok by lia.
  fold (paths_of initial_price mu sigma (Z.to_nat sims) (Z.to_nat days) g1).
  fold (paths_of initial_price mu sigma (Z.to_nat sims) (Z.to_nat days) g2).
  rewrite (paths_of_ext _ _ _ _ _ g1 g2 Hv). reflexivity.
Qed.

End SimulatorDraws.

(** ** The simulator in exact arithmetic: the shape of a path *)

Section SimulatorPaths.

Context {G : Type} `{RandomState R G}.

Local Open Scope R_scope.

Lemma Rsum_app (l1 l2 : list R) :
  Stats.Rsum (l1 ++ l2) = Stats.Rsum l1 + Stats.Rsum l2.
Proof.
  induction l1 as [|x l1 IH]; simpl; [lra|]. rewrite IH. lra.
Qed.

(** X7: every price of a returned path is the initial price times the
    exponential of the sum of the draws of the days up to it, so that the
    logarithm of the price is a random walk (exact arithmetic). *)
Theorem simulate_price_is_exponential_of_summed_draws
        (initial_price mu sigma : R) (days sims : Z) (g : G) :
  0 <= sigma -> (1 <= days)%Z -> (1 <= sims)%Z ->
  exists price_paths median_price ci_lower ci_upper,
    fst (simulate_crypto_prices initial_price mu sigma days sims g) =
    Ok (price_paths, median_price, ci_lower, ci_upper) /\
    forall i t, (i < Z.to_nat sims)%nat -> (t < Z.to_nat days)%nat ->
      nth t (nth i price_paths []) 0 =
      initial_price
      * exp (Stats.Rsum
               (map (normal_draw (mu * dt) (sigma * R_sqrt.sqrt dt) g
                                 (Z.to_nat days) i)
                    (seq 1 t))).
Proof.
  intros Hsigma Hd Hs.
  destruct (simulate_crypto_prices_returns initial_price mu sigma days sims
              g Hd Hs (draw_scale_accepted sigma Hsigma))
    as (m & lo & hi & _ & Hcall).
  eexists _, m, lo, hi. split; [rewrite Hcall; reflexivity|].
  intros i t Hi Ht.
  destruct (paths_of_entries initial_price mu sigma (Z.to_nat sims)
              (Z.to_nat days) g i ltac:(lia) Hi) as (_ & H0' & Hrec).
  cbn [of_int R_Arith fmul np_exp R_Libm] in H0', Hrec.
  induction t as [|t IH].
  - rewrite H0'. simpl. rewrite exp_0. ring.
  - rewrite Hrec by lia. replace (S t - 1)%nat with t by lia.
    rewrite IH by lia.
    rewrite seq_S, map_app, Rsum_app, exp_plus.
    simpl. rewrite Rplus_0_r. unfold draw_loc, draw_scale.
    cbn [fmul fsqrt R_Arith]. ring.
Qed.

(** X8: without volatility the generator has no influence: every path
    grows at the rate of the drift, [initial_price * exp(mu * dt * t)] on
    day [t] (exact arithmetic). *)
Theorem simulate_zero_volatility_is_exponential_growth
        (initial_price mu : R) (days sims : Z) (g : G) :
  (1 <= days)%Z -> (1 <= sims)%Z ->
  exists price_paths median_price ci_lower ci_upper,
    fst (simulate_crypto_prices initial_price mu 0 days sims g) =
    Ok (price_paths, median_price, ci_lower, ci_upper) /\
    forall i t, (i < Z.to_nat sims)%nat -> (t < Z.to_nat days)%nat ->
      nth t (nth i price_paths []) 0 =
      initial_price * exp (mu * dt * INR t).
Proof.
  intros Hd Hs.
  destruct (simulate_crypto_prices_returns initial_price mu 0 days sims
              g Hd Hs (draw_scale_accepted 0 (Rle_refl 0)))
    as (m & lo & hi & _ & Hcall).
  eexists _, m, lo, hi. split; [rewrite Hcall; reflexivity|].
  intros i t Hi Ht.
  destruct (paths_of_entries initial_price mu 0 (Z.to_nat sims)
              (Z.to_nat days) g i ltac:(lia) Hi) as (_ & H0' & Hrec).
  cbn [of_int R_Arith fmul np_exp R_Libm] in H0', Hrec.
  induction t as [|t IH].
  - rewrite H0'. simpl. rewrite Rmult_0_r, exp_0. ring.
  - rewrite Hrec by lia. replace (S t - 1)%nat with t by lia.
    rewrite IH by lia. rewrite S_INR.
    unfold normal_draw, draw_loc, draw_scale. cbn [fadd fmul fsqrt R_Arith].
    replace (mu * dt + 0 * R_sqrt.sqrt dt
                       * variate g (i * Z.to_nat days + S t))
      with (mu * dt) by ring.
    replace (mu * dt * (INR t + 1)) with (mu * dt * INR t + mu * dt) by ring.
    rewrite exp_plus. ring.
Qed.

(** X9: a negative volatility is refused by numpy before anything is
    drawn: the call raises the wrapped [scale < 0] and leaves the
    generator as it found it (exact arithmetic). *)
Theorem simulate_negative_volatility_raises
        (initial_price mu sigma : R) (days sims : Z) (g : G) :
  sigma < 0 ->
  simulate_crypto_prices initial_price mu sigma days sims g =
  (Raise (Exception ("Error in simulate_crypto_prices: " ++ "scale < 0")), g).
Proof.
  intros Hsigma. apply simulate_crypto_prices_scale_refused.
  unfold violates_non_negative, draw_scale.
  cbn [fsignbit fisnan fmul fsqrt negb andb R_Arith].
  assert (Hpos : 0 < R_sqrt.sqrt dt).
  { apply sqrt_lt_R0. rewrite dt_R. lra. }
  destruct (Rlt_dec (sigma * R_sqrt.sqrt dt) 0) as [_|Hge];
    [reflexivity|]. exfalso. apply Hge. nra.
Qed.

(** X10: with a horizon of one day no step is taken: every path is the
    initial price alone, and so are the three statistics, whatever the
    drift, the volatility and the generator (exact arithmetic). *)
Theorem simulate_one_day_is_initial_price
        (initial_price mu sigma : R) (sims : Z) (g : G) :
  0 <= sigma -> (1 <= sims)%Z ->
  fst (simulate_crypto_prices initial_price mu sigma 1 sims g) =
  Ok (repeat [initial_price] (Z.to_nat sims),
      initial_price, initial_price, initial_price).
Proof.
  intros Hsigma Hs.
  destruct (simulate_crypto_prices_returns initial_price mu sigma 1 sims
              g ltac:(lia) Hs (draw_scale_accepted sigma Hsigma))
    as (m & lo & hi & Hsum & Hcall).
  rewrite Hcall. cbn [fst]. change (Z.to_nat 1) with 1%nat in *.
  assert (Hpaths : paths_of initial_price mu sigma (Z.to_nat sims) 1 g =
                   repeat (repeat initial_price 1) (Z.to_nat sims)).
  { apply (nth_ext _ _ [] []).
    - rewrite length_paths_of, repeat_length. reflexivity.
    - intros i Hi. rewrite length_paths_of in Hi.
      rewrite nth_repeat_lt by exact Hi.
      destruct (paths_of_entries initial_price mu sigma (Z.to_nat sims) 1 g i
                  ltac:(lia) Hi) as (Hlen & H0' & _).
      cbn [of_int R_Arith] in H0'.
      destruct (nth i (paths_of initial_price mu sigma (Z.to_nat sims) 1 g) [])
        as [|x [|y row]]; simpl in Hlen; try lia.
      simpl in H0'. subst x. reflexivity. }
  rewrite Hpaths in Hsum |- *.
  rewrite summarize_constant in Hsum by lia.
  injection Hsum as <- <- <-. reflexivity.
Qed.

End SimulatorPaths.

(** ** The statistics in exact arithmetic: order and bounds *)

Section StatisticsOrder.

Local Open Scope R_scope.

Lemma sorted_nth_le (s : list R) (i j : nat) :
  StronglySorted Rle s -> (i <= j)%nat -> (j < length s)%nat ->
  nth i s 0 <= nth j s 0.
Proof.
  intros Hs. revert i j.
  induction Hs as [|x s Hs IH Hx]; intros i j Hij Hj; [simpl in Hj; lia|].
  destruct i as [|i], j as [|j]; simpl in *; try lia.
  - lra.
  - rewrite Forall_forall in Hx. apply Hx, nth_In. lia.
  - apply IH; lia.
Qed.

(** The rank of a percentile and the index below it. *)
Lemma rank_bounds (n : nat) (p : R) :
  (1 <= n)%nat -> 0 <= p <= 100 ->
  0 <= (INR n - 1) * (p / 100) <= INR n - 1 /\
  (Z.to_nat (Int_part ((INR n - 1) * (p / 100))) <= n - 1)%nat /\
  INR (Z.to_nat (Int_part ((INR n - 1) * (p / 100))))
  <= (INR n - 1) * (p / 100)
  < INR (Z.to_nat (Int_part ((INR n - 1) * (p / 100)))) + 1.
Proof.
  intros Hn Hp.
  set (h := (INR n - 1) * (p / 100)).
  set (k := Z.to_nat (Int_part h)).
  assert (Hn1 : 0 <= INR n - 1).
  { pose proof (le_INR 1 n Hn) as H1. change (INR 1) with 1 in H1. lra. }
  assert (Hh : 0 <= h <= INR n - 1).
  { unfold h. split; [apply Rmult_le_pos; lra|].
    assert (p / 100 <= 1) by lra. nra. }
  destruct (Int_part_bounds h (proj1 Hh)) as [Hz0 [Hzl Hzu]].
  assert (Hzn : (Int_part h <= Z.of_nat n - 1)%Z).
  { apply le_IZR. rewrite of_int_pred_nat. lra. }
  split; [exact Hh|]. split; [unfold k; lia|].
  unfold k. rewrite INR_IZR_INZ, Z2Nat.id by lia. lra.
Qed.

(** A percentile lies between the two values that enclose its rank. *)
Lemma percentile_linear_between (s : list R) (p : R) :
  StronglySorted Rle s -> (1 <= length s)%nat -> 0 <= p <= 100 ->
  nth (Z.to_nat (Int_part ((INR (length s) - 1) * (p / 100)))) s 0
  <= Stats.percentile_linear s p
  <= nth (Nat.min
            (Z.to_nat (Int_part ((INR (length s) - 1) * (p / 100))) + 1)
            (length s - 1)) s 0.
Proof.
  intros Hs Hn Hp.
  destruct (rank_bounds (length s) p Hn Hp) as (Hh & Hk & Hfrac).
  unfold Stats.percentile_linear. cbv zeta.
  set (h := (INR (length s) - 1) * (p / 100)) in *.
  set (k := Z.to_nat (Int_part h)) in *.
  assert (Hle : nth k s 0 <= nth (Nat.min (k + 1) (length s - 1)) s 0)
    by (apply sorted_nth_le; [exact Hs|lia|lia]).
  split; nra.
Qed.

Lemma percentile_linear_monotone (s : list R) (p q : R) :
  StronglySorted Rle s -> (1 <= length s)%nat ->
  0 <= p -> p <= q -> q <= 100 ->
  Stats.percentile_linear s p <= Stats.percentile_linear s q.
Proof.
  intros Hs Hn Hp Hpq Hq.
  destruct (rank_bounds (length s) p Hn ltac:(lra)) as (Hhp & Hkp & Hfp).
  destruct (rank_bounds (length s) q Hn ltac:(lra)) as (Hhq & Hkq & Hfq).
  pose proof (percentile_linear_between s p Hs Hn ltac:(lra)) as Hbp.
  pose proof (percentile_linear_between s q Hs Hn ltac:(lra)) as Hbq.
  set (hp := (INR (length s) - 1) * (p / 100)) in *.
  set (hq := (INR (length s) - 1) * (q / 100)) in *.
  set (kp := Z.to_nat (Int_part hp)) in *.
  set (kq := Z.to_nat (Int_part hq)) in *.
  assert (Hh : hp <= hq).
  { unfold hp, hq. apply Rmult_le_compat_l; lra. }
  assert (Hk : (kp <= kq)%nat).
  { apply INR_le. apply Rnot_lt_le. intros Hlt.
    assert (INR kq + 1 <= INR kp).
    { rewrite <- S_INR. apply le_INR. apply INR_lt in Hlt. lia. }
    lra. }
  destruct (Nat.eq_dec kp kq) as [E|Hne].
  - unfold Stats.percentile_linear. cbv zeta.
    fold hp. fold hq. fold kp. fold kq. rewrite <- E.
    assert (Hle : nth kp s 0 <= nth (Nat.min (kp + 1) (length s - 1)) s 0)
      by (apply sorted_nth_le; [exact Hs|lia|lia]).
    nra.
  - assert (Hmid : nth (Nat.min (kp + 1) (length s - 1)) s 0 <= nth kq s 0)
      by (apply sorted_nth_le; [exact Hs|lia|lia]).
    lra.
Qed.

(** The median is the 50th percentile. *)
Lemma median_percentile_50 (s : list R) :
  (1 <= length s)%nat -> Stats.median s = Stats.percentile_linear s 50.
Proof.
  intros Hn. unfold Stats.median, Stats.percentile_linear.
  set (n := length s) in *.
  destruct (Nat.odd n) eqn:Ho.
  - apply Nat.odd_spec in Ho. destruct Ho as [m Hm].
    assert (Hh : (INR n - 1) * (50 / 100) = INR m).
    { rewrite Hm, plus_INR, mult_INR. simpl. lra. }
    rewrite Hh, Int_part_INR, Nat2Z.id.
    replace ((n - 1) / 2)%nat with m
      by (apply Nat.div_unique with (r := 0%nat); lia).
    ring.
  - assert (He : Nat.even n = true).
    { rewrite <- Nat.negb_odd, Ho. reflexivity. }
    apply Nat.even_spec in He. destruct He as [m Hm].
    assert (Hm1 : (1 <= m)%nat) by lia.
    assert (Hh : (INR n - 1) * (50 / 100) = INR (m - 1) + / 2).
    { rewrite Hm, mult_INR, minus_INR by lia. simpl. lra. }
    rewrite Hh.
    assert (Hk : Int_part (INR (m - 1) + / 2) = Z.of_nat (m - 1)).
    { symmetry. apply Int_part_spec. rewrite <- INR_IZR_INZ. lra. }
    rewrite Hk, Nat2Z.id.
    replace (n / 2)%nat with m
      by (apply Nat.div_unique with (r := 0%nat); lia).
    rewrite Nat.min_l by lia.
    replace (m - 1 + 1)%nat with m by lia.
    field.
Qed.

Lemma statistics_ordered (s : list R) :
  StronglySorted Rle s -> (1 <= length s)%nat ->
  Stats.percentile_linear s (5 / 2) <= Stats.median s
  <= Stats.percentile_linear s (195 / 2).
Proof.
  intros Hs Hn. rewrite median_percentile_50 by exact Hn.
  split; apply percentile_linear_monotone; solve [assumption | lra].
Qed.

(** The statistics of lines 73-76 in the terms of the specification. *)
Lemma summarize_R (price_paths : ndarray2 R) (days : nat) :
  price_paths <> [] ->
  let s := np_sort (getitem_col price_paths (days - 1)) in
  summarize price_paths days =
  Ok (Stats.median s,
      Stats.percentile_linear s (5 / 2),
      Stats.percentile_linear s (195 / 2)).
Proof.
  intros Hne s. unfold summarize.
  assert (Hcol : getitem_col price_paths (days - 1) <> []).
  { unfold getitem_col. destruct price_paths; [congruence|discriminate]. }
  rewrite np_median_R by exact Hcol.
  cbn [fdiv of_int R_Arith].
  rewrite !np_percentile_R by (auto; lra).
  reflexivity.
Qed.

End StatisticsOrder.

Section SimulatorStatistics.

Context {G : Type} `{RandomState R G}.

Local Open Scope R_scope.

(** The statistics of a call that has returned. *)
Lemma simulate_crypto_prices_statistics
      (p mu sigma : R) (days sims : Z) (g g' : G)
      (price_paths : ndarray2 R) (median_price ci_lower ci_upper : R) :
  simulate_crypto_prices p mu sigma days sims g =
  (Ok (price_paths, median_price, ci_lower, ci_upper), g') ->
  let s := np_sort (getitem_col price_paths (Z.to_nat days - 1)) in
  (1 <= length s)%nat /\
  Permutation s (getitem_col price_paths (Z.to_nat days - 1)) /\
  median_price = Stats.median s /\
  ci_lower = Stats.percentile_linear s (5 / 2) /\
  ci_upper = Stats.percentile_linear s (195 / 2).
Proof.
  intros Hcall s.
  destruct (simulate_crypto_prices_returned _ _ _ _ _ _ _ _ _ _ _ Hcall)
    as (Hd & Hs & Hpaths).
  assert (Hne : price_paths <> []).
  { rewrite Hpaths. apply paths_of_nonempty. lia. }
  assert (Hscale : violates_non_negative (draw_scale sigma) = false).
  { destruct (violates_non_negative (draw_scale sigma)) eqn:E; [|reflexivity].
    rewrite simulate_crypto_prices_scale_refused in Hcall by exact E.
    discriminate. }
  destruct (simulate_crypto_prices_returns p mu sigma days sims g Hd Hs Hscale)
    as (m & lo & hi & Hsum & Hcall').
  rewrite Hcall' in Hcall. injection Hcall as _ <- <- <- _.
  rewrite <- Hpaths in Hsum.
  rewrite (summarize_R price_paths (Z.to_nat days) Hne) in Hsum.
  injection Hsum as <- <- <-.
  split.
  - unfold s. rewrite length_np_sort. unfold getitem_col.
    rewrite length_map. destruct price_paths; [congruence|simpl; lia].
  - split; [apply np_sort_perm|]. repeat split; reflexivity.
Qed.

(** X11: the three statistics of every call that returns are in order:
    the lower bound is at most the median, which is at most the upper
    bound (exact arithmetic). *)
Theorem simulate_interval_encloses_median
        (initial_price mu sigma : R) (days sims : Z) (g g' : G)
        (price_paths : ndarray2 R) (median_price ci_lower ci_upper : R) :
  simulate_crypto_prices initial_price mu sigma days sims g =
  (Ok (price_paths, median_price, ci_lower, ci_upper), g') ->
  ci_lower <= median_price <= ci_upper.
Proof.
  intros Hcall.
  destruct (simulate_crypto_prices_statistics _ _ _ _ _ _ _ _ _ _ _ Hcall)
    as (Hn & _ & -> & -> & ->).
  apply statistics_ordered; [apply np_sort_sorted|exact Hn].
Qed.

(** X12: with a positive initial price the three statistics of every
    call that returns are strictly positive (exact arithmetic). *)
Theorem simulate_statistics_positive
        (initial_price mu sigma : R) (days sims : Z) (g g' : G)
        (price_paths : ndarray2 R) (median_price ci_lower ci_upper : R) :
  0 < initial_price ->
  simulate_crypto_prices initial_price mu sigma days sims g =
  (Ok (price_paths, median_price, ci_lower, ci_upper), g') ->
  0 < ci_lower /\ 0 < median_price /\ 0 < ci_upper.
Proof.
  intros Hp Hcall.
  destruct (simulate_crypto_prices_statistics _ _ _ _ _ _ _ _ _ _ _ Hcall)
    as (Hn & Hperm & Hm & Hlo & Hhi).
  destruct (simulate_crypto_prices_returned _ _ _ _ _ _ _ _ _ _ _ Hcall)
    as (Hd & Hs & Hpaths).
  set (s := np_sort (getitem_col price_paths (Z.to_nat days - 1))) in *.
  assert (Hpos : Forall (fun x => 0 < x) s).
  { eapply Permutation_Forall; [apply Permutation_sym, Hperm|].
    unfold getitem_col. apply Forall_forall. intros x Hx.
    apply in_map_iff in Hx. destruct Hx as (row & <- & Hrow).
    pose proof (paths_of_Forall_positive initial_price mu sigma
                  (Z.to_nat sims) (Z.to_nat days) g Hp ltac:(lia)) as Hall.
    rewrite <- Hpaths in Hall. rewrite Forall_forall in Hall.
    specialize (Hall row Hrow).
    apply (In_nth _ _ []) in Hrow. destruct Hrow as (i & Hi & Hrow).
    rewrite Hpaths, length_paths_of in Hi.
    destruct (paths_of_entries initial_price mu sigma (Z.to_nat sims)
                (Z.to_nat days) g i ltac:(lia) Hi) as (Hlen & _).
    rewrite <- Hpaths, Hrow in Hlen.
    rewrite Forall_forall in Hall. apply Hall, nth_In. lia. }
  assert (Hlow : 0 < ci_lower).
  { rewrite Hlo.
    destruct (percentile_linear_between s (5 / 2) (np_sort_sorted _) Hn
                ltac:(lra)) as [Hb _].
    destruct (rank_bounds (length s) (5 / 2) Hn ltac:(lra)) as (_ & Hk & _).
    rewrite Forall_forall in Hpos.
    eapply Rlt_le_trans; [|exact Hb]. apply Hpos, nth_In. lia. }
  pose proof (statistics_ordered s (np_sort_sorted _) Hn) as Hord.
  rewrite <- Hm, <- Hlo, <- Hhi in Hord. lra.
Qed.

End SimulatorStatistics.

(** ** The answer of the exchange *)

Section ExchangeProperties.

Context {F : Type} `{Arith F}.

Lemma close_until_app (end_date : Z) (a b : list (candle F)) :
  close_until end_date (a ++ b) =
  close_until end_date a ++ close_until end_date b.
Proof. unfold close_until. rewrite filter_app, map_app. reflexivity. Qed.

Lemma close_until_later (end_date : Z) (later : list (candle F)) :
  Forall (fun k => (end_date < candle_timestamp k)%Z) later ->
  close_until end_date later = [].
Proof.
  unfold close_until. induction 1 as [|k later Hk _ IH]; [reflexivity|].
  simpl. destruct (Z.leb_spec (candle_timestamp k) end_date); [lia|].
  exact IH.
Qed.

Lemma fetch_crypto_data_ohlcv_cons (ticker : string) (end_date : Z)
      (k : candle F) (ohlcv : list (candle F)) :
  fetch_crypto_data_ohlcv ticker end_date (Ok (k :: ohlcv)) =
  fetch_crypto_data ticker (close_until end_date (k :: ohlcv)).
Proof. reflexivity. Qed.

(** X13: the candles later than the end date never influence the
    estimate: an answer of the exchange followed by such candles gives
    what the answer alone gives. *)
Theorem ohlcv_after_end_date_is_ignored
        (ticker : string) (end_date : Z) (ohlcv later : list (candle F)) :
  ohlcv <> [] ->
  Forall (fun k => (end_date < candle_timestamp k)%Z) later ->
  fetch_crypto_data_ohlcv ticker end_date (Ok (ohlcv ++ later)) =
  fetch_crypto_data_ohlcv ticker end_date (Ok ohlcv).
Proof.
  intros Hne Hlater. destruct ohlcv as [|k ohlcv]; [congruence|].
  change ((k :: ohlcv) ++ later) with (k :: (ohlcv ++ later)).
  rewrite !fetch_crypto_data_ohlcv_cons.
  change (k :: (ohlcv ++ later)) with ((k :: ohlcv) ++ later).
  rewrite close_until_app, (close_until_later _ _ Hlater), app_nil_r.
  reflexivity.
Qed.

(** X14: of a candle only the time and the closing price are read: two
    answers with the same times and the same closing prices give the same
    outcome, whatever their open, high, low and volume. *)
Theorem ohlcv_only_time_and_close_are_read
        (ticker : string) (end_date : Z) (a b : list (candle F)) :
  map (fun k => (candle_timestamp k, candle_close k)) a =
  map (fun k => (candle_timestamp k, candle_close k)) b ->
  fetch_crypto_data_ohlcv ticker end_date (Ok a) =
  fetch_crypto_data_ohlcv ticker end_date (Ok b).
Proof.
  intros Hab.
  assert (Hclose : close_until end_date a = close_until end_date b).
  { unfold close_until. revert b Hab.
    induction a as [|x a IH]; intros [|y b] Hab; try discriminate;
      [reflexivity|].
    simpl in Hab. injection Hab as Hts Hc Hrest.
    simpl. rewrite Hts.
    destruct (candle_timestamp y <=? end_date)%Z; simpl;
      rewrite ?Hc, (IH b Hrest); reflexivity. }
  destruct a as [|x a], b as [|y b]; try discriminate; [reflexivity|].
  rewrite !fetch_crypto_data_ohlcv_cons, Hclose. reflexivity.
Qed.

(** X15: the two ways an answer can hold too little: the empty answer
    is reported as [No data fetched]; an answer with candles, of which
    fewer than three are dated up to the end date, is reported as
    [Insufficient data points]. *)
Theorem ohlcv_too_little_data_raises
        (ticker : string) (end_date : Z) (ohlcv : list (candle F)) :
  (ohlcv = [] ->
   fetch_crypto_data_ohlcv ticker end_date (Ok ohlcv) =
   Raise (Exception ("Error in fetch_crypto_data for " ++ ticker ++ ": "
                     ++ "No data fetched for " ++ ticker))) /\
  (ohlcv <> [] ->
   (length (filter (fun k => (candle_timestamp k <=? end_date)%Z) ohlcv)
    < 3)%nat ->
   fetch_crypto_data_ohlcv ticker end_date (Ok ohlcv) =
   Raise (insufficient_data ticker)).
Proof.
  split.
  - intros ->. reflexivity.
  - intros Hne Hlen. destruct ohlcv as [|k ohlcv]; [congruence|].
    rewrite fetch_crypto_data_ohlcv_cons.
    apply fetch_crypto_data_insufficient.
    pose proof (length_returns_le (close_until end_date (k :: ohlcv)))
      as Hle.
    unfold close_until in Hle at 2. rewrite length_map in Hle. lia.
Qed.

End ExchangeProperties.

(** ** The figure *)

Section FigureProperties.

Context {F : Type} `{Arith F} `{Libm F}.

Variable fillcolor_of : string -> result string.

Lemma skipn_nth_cons {A : Type} (l : list A) (a : nat) (d : A) :
  (a < length l)%nat -> skipn a l = nth a l d :: skipn (S a) l.
Proof.
  revert a; induction l as [|x l IH]; intros [|a] Ha; simpl in *;
    try lia; auto.
  apply IH. lia.
Qed.

Lemma getitem_row_ok (price_paths : ndarray2 F) (i : nat) :
  (i < length price_paths)%nat ->
  getitem_row price_paths i = Ok (nth i price_paths []).
Proof.
  intros Hi. unfold getitem_row.
  rewrite (nth_error_nth' price_paths [] Hi). reflexivity.
Qed.

Lemma getitem_row_out_of_bounds (price_paths : ndarray2 F) (i : nat) :
  (length price_paths <= i)%nat ->
  getitem_row price_paths i =
  Raise (IndexError ("index " ++ str_nat i
                     ++ " is out of bounds for axis 0 with size "
                     ++ str_nat (length price_paths))).
Proof.
  intros Hi. unfold getitem_row.
  apply nth_error_None in Hi. rewrite Hi. reflexivity.
Qed.

Lemma path_traces_seq_ok (price_paths : ndarray2 F) (a n : nat) :
  (a + n <= length price_paths)%nat ->
  path_traces price_paths (seq a n) =
  Ok (map path_trace (firstn n (skipn a price_paths))).
Proof.
  revert a; induction n as [|n IH]; intros a Han; [reflexivity|].
  cbn [seq path_traces].
  rewrite getitem_row_ok by lia. cbn [bindr].
  rewrite IH by lia. cbn [bindr].
  rewrite (skipn_nth_cons price_paths a []) by lia. reflexivity.
Qed.

Lemma path_traces_seq_out_of_bounds (price_paths : ndarray2 F) (a n : nat) :
  (a <= length price_paths)%nat -> (length price_paths < a + n)%nat ->
  path_traces price_paths (seq a n) =
  Raise (IndexError ("index " ++ str_nat (length price_paths)
                     ++ " is out of bounds for axis 0 with size "
                     ++ str_nat (length price_paths))).
Proof.
  revert a; induction n as [|n IH]; intros a Ha Han; [lia|].
  cbn [seq path_traces].
  destruct (Nat.eq_dec a (length price_paths)) as [->|Hne].
  - rewrite getitem_row_out_of_bounds by lia. reflexivity.
  - rewrite getitem_row_ok by lia. cbn [bindr].
    rewrite IH by lia. reflexivity.
Qed.

Lemma collect_map_Ok {A : Type} (f : A -> F) (js : list A) :
  collect (map (fun j => Ok (f j)) js) = Ok (map f js).
Proof.
  induction js as [|j js IH]; [reflexivity|].
  cbn [map collect bindr]. rewrite IH. reflexivity.
Qed.

Lemma getitem_col_nonempty (a : ndarray2 F) (j : nat) :
  a <> [] -> getitem_col a j <> [].
Proof. destruct a; [congruence|discriminate]. Qed.

(** The percentiles of the columns of an array that has a row. *)
Lemma np_percentile_axis0_ok (a : ndarray2 F) (q : F) :
  a <> [] ->
  np_percentile_axis0 a q =
  Ok (map (fun j => quantile_linear (getitem_col a j) (q / of_int 100)%num)
          (seq 0 (ncols a))).
Proof.
  intros Hne. unfold np_percentile_axis0.
  rewrite <- collect_map_Ok. f_equal. apply map_ext. intros j.
  pose proof (getitem_col_nonempty a j Hne) as Hcol.
  unfold np_percentile. destruct (getitem_col a j); [congruence|reflexivity].
Qed.

(** The figure of an array of at least 100 paths. *)
Lemma plot_crypto_forecast_ok
      (price_paths : ndarray2 F) (crypto_name color fillcolor : string) :
  (100 <= length price_paths)%nat ->
  fillcolor_of color = Ok fillcolor ->
  plot_crypto_forecast fillcolor_of price_paths crypto_name color =
  Ok (map path_trace (firstn 100 price_paths)
      ++ [Scatter dates (np_median_axis0 price_paths)
                  (Some (crypto_name ++ " Median")%string) None;
          Scatter (dates ++ rev dates)
                  (map (fun j => quantile_linear (getitem_col price_paths j)
                                   (of_int 195 / of_int 2 / of_int 100)%num)
                       (seq 0 (ncols price_paths))
                   ++ rev (map (fun j =>
                                  quantile_linear (getitem_col price_paths j)
                                    (of_int 5 / of_int 2 / of_int 100)%num)
                               (seq 0 (ncols price_paths))))
                  (Some "95% CI") (Some fillcolor)]).
Proof.
  intros Hlen Hfill.
  assert (Hne : price_paths <> [])
    by (destruct price_paths; [simpl in Hlen; lia|discriminate]).
  unfold plot_crypto_forecast.
  change (Z.to_nat (Z.min 100 N_SIMS)) with 100%nat.
  rewrite path_traces_seq_ok by lia. cbn [bindr skipn].
  rewrite !np_percentile_axis0_ok by exact Hne. cbn [bindr].
  rewrite Hfill. reflexivity.
Qed.

(** A figure that is returned had at least 100 paths and a colour that
    Python accepts. *)
Lemma plot_crypto_forecast_returned
      (price_paths : ndarray2 F) (crypto_name color : string)
      (traces : list (scatter F)) :
  plot_crypto_forecast fillcolor_of price_paths crypto_name color =
  Ok traces ->
  (100 <= length price_paths)%nat /\
  exists fillcolor, fillcolor_of color = Ok fillcolor.
Proof.
  intros Hplot.
  destruct (Nat.lt_ge_cases (length price_paths) 100) as [Hlt|Hge].
  - unfold plot_crypto_forecast in Hplot.
    change (Z.to_nat (Z.min 100 N_SIMS)) with 100%nat in Hplot.
    rewrite path_traces_seq_out_of_bounds in Hplot by lia. discriminate.
  - split; [exact Hge|].
    destruct (fillcolor_of color) as [fill|e] eqn:Hfill; [eauto|].
    assert (Hne : price_paths <> [])
      by (destruct price_paths; [simpl in Hge; lia|discriminate]).
    unfold plot_crypto_forecast in Hplot.
    change (Z.to_nat (Z.min 100 N_SIMS)) with 100%nat in Hplot.
    rewrite path_traces_seq_ok in Hplot by lia. cbn [bindr] in Hplot.
    rewrite !np_percentile_axis0_ok in Hplot by exact Hne.
    cbn [bindr] in Hplot. rewrite Hfill in Hplot. discriminate.
Qed.



End FigureProperties.

Section FigureExact.

Context {G : Type} `{RandomState R G}.

Variable fillcolor_of : string -> result string.

Local Open Scope R_scope.

Lemma quantile_linear_R (a : list R) (q : R) :
  a <> [] -> 0 <= q <= 100 ->
  quantile_linear a (q / 100) = Stats.percentile_linear (np_sort a) q.
Proof.
  intros Hne Hq. pose proof (np_percentile_R a q Hne Hq) as Hp.
  destruct a as [|x a]; [congruence|].
  unfold np_percentile in Hp. cbn [fdiv of_int R_Arith] in Hp.
  injection Hp as Hp. exact Hp.
Qed.

(** The last two traces of a figure that is returned. *)
Lemma plot_crypto_forecast_last_traces
      (price_paths : ndarray2 R) (crypto_name color : string)
      (traces : list (scatter R)) :
  plot_crypto_forecast fillcolor_of price_paths crypto_name color =
  Ok traces ->
  price_paths <> [] /\
  scatter_y (nth 100 traces no_trace) = np_median_axis0 price_paths /\
  scatter_y (nth 101 traces no_trace) =
  map (fun j => Stats.percentile_linear
                  (np_sort (getitem_col price_paths j)) (195 / 2))
      (seq 0 (ncols price_paths))
  ++ rev (map (fun j => Stats.percentile_linear
                          (np_sort (getitem_col price_paths j)) (5 / 2))
              (seq 0 (ncols price_paths))).
Proof.
  intros Hplot.
  destruct (plot_crypto_forecast_returned _ _ _ _ _ Hplot)
    as (Hlen & fill & Hfill).
  assert (Hne : price_paths <> [])
    by (destruct price_paths; [simpl in Hlen; lia|discriminate]).
  rewrite (plot_crypto_forecast_ok _ _ _ _ _ Hlen Hfill) in Hplot.
  apply (f_equal (fun r => match r with
                           | Ok t => t
                           | Raise _ => []
                           end)) in Hplot.
  cbv beta iota in Hplot. subst traces.
  assert (Hfirst : length (map path_trace (firstn 100 price_paths))
                   = 100%nat).
  { rewrite length_map, length_firstn. lia. }
  split; [exact Hne|]. split.
  - rewrite app_nth2 by (rewrite Hfirst; lia).
    rewrite Hfirst, Nat.sub_diag. reflexivity.
  - rewrite app_nth2 by (rewrite Hfirst; lia). rewrite Hfirst.
    change (101 - 100)%nat with 1%nat. cbn [nth scatter_y].
    cbn [fdiv of_int R_Arith].
    f_equal; [|f_equal]; apply map_ext; intros j;
      apply quantile_linear_R;
      solve [apply getitem_col_nonempty; exact Hne | lra].
Qed.

(** X18: on every day of a figure that is returned the band encloses the
    median path: the upper value of the day and the lower value, found at
    the mirrored position of the band, have the median between them
    (exact arithmetic). *)
Theorem plot_band_encloses_median_path
        (price_paths : ndarray2 R) (crypto_name color : string)
        (traces : list (scatter R)) (j : nat) :
  plot_crypto_forecast fillcolor_of price_paths crypto_name color =
  Ok traces ->
  (j < ncols price_paths)%nat ->
  nth (2 * ncols price_paths - 1 - j)
      (scatter_y (nth 101 traces no_trace)) 0
  <= nth j (scatter_y (nth 100 traces no_trace)) 0
  <= nth j (scatter_y (nth 101 traces no_trace)) 0.
Proof.
  intros Hplot Hj.
  destruct (plot_crypto_forecast_last_traces _ _ _ _ Hplot)
    as (Hne & -> & ->).
  set (n := ncols price_paths) in *.
  set (upper := map _ (seq 0 n)).
  set (lower := map _ (seq 0 n)).
  assert (Hu : length upper = n)
    by (unfold upper; rewrite length_map, length_seq; reflexivity).
  assert (Hl : length lower = n)
    by (unfold lower; rewrite length_map, length_seq; reflexivity).
  rewrite (app_nth1 upper (rev lower) 0 (n := j)) by lia.
  rewrite (app_nth2 upper (rev lower) 0 (n := (2 * n - 1 - j)%nat)) by lia.
  rewrite Hu. rewrite rev_nth by lia. rewrite Hl.
  replace (n - S (2 * n - 1 - j - n))%nat with j by lia.
  unfold upper, lower, np_median_axis0. fold n.
  rewrite !(nth_map_lt _ _ _ _ 0%nat) by (rewrite length_seq; lia).
  rewrite seq_nth by lia. cbn [Nat.add].
  pose proof (getitem_col_nonempty price_paths j Hne) as Hcol.
  rewrite np_median_R by exact Hcol.
  apply statistics_ordered; [apply np_sort_sorted|].
  rewrite length_np_sort.
  destruct (getitem_col price_paths j); [congruence|simpl; lia].
Qed.

Lemma hd_nth_0 {A : Type} (l : list A) (d : A) : hd d l = nth 0 l d.
Proof. destruct l; reflexivity. Qed.

Lemma getitem_col_0_paths_of (p mu sigma : R) (sims days : nat) (g : G) :
  (1 <= days)%nat ->
  getitem_col (paths_of p mu sigma sims days g) 0 = repeat p sims.
Proof.
  intros Hd. apply (nth_ext _ _ 0 0).
  - unfold getitem_col. rewrite length_map, length_paths_of, repeat_length.
    reflexivity.
  - intros i Hi. unfold getitem_col in *.
    rewrite length_map, length_paths_of in Hi.
    rewrite (nth_map_lt _ _ _ _ []) by (rewrite length_paths_of; exact Hi).
    rewrite nth_repeat_lt by exact Hi.
    destruct (paths_of_entries p mu sigma sims days g i Hd Hi)
      as (_ & H0' & _).
    exact H0'.
Qed.

(** X19: in the figure of an array that [simulate_crypto_prices] has
    returned, the median path and both edges of the band start at the
    initial price (exact arithmetic). *)
Theorem plot_starts_at_initial_price
        (initial_price mu sigma : R) (days sims : Z) (g g' : G)
        (price_paths : ndarray2 R) (median_price ci_lower ci_upper : R)
        (crypto_name color : string) (traces : list (scatter R)) :
  simulate_crypto_prices initial_price mu sigma days sims g =
  (Ok (price_paths, median_price, ci_lower, ci_upper), g') ->
  plot_crypto_forecast fillcolor_of price_paths crypto_name color =
  Ok traces ->
  nth 0 (scatter_y (nth 100 traces no_trace)) 0 = initial_price /\
  nth 0 (scatter_y (nth 101 traces no_trace)) 0 = initial_price /\
  nth (2 * Z.to_nat days - 1) (scatter_y (nth 101 traces no_trace)) 0
  = initial_price.
Proof.
  intros Hcall Hplot.
  destruct (simulate_crypto_prices_returned _ _ _ _ _ _ _ _ _ _ _ Hcall)
    as (Hd & Hs & Hpaths).
  destruct (plot_crypto_forecast_last_traces _ _ _ _ Hplot)
    as (Hne & -> & ->).
  assert (Hn : ncols price_paths = Z.to_nat days).
  { unfold ncols. rewrite Hpaths.
    destruct (paths_of_entries initial_price mu sigma (Z.to_nat sims)
                (Z.to_nat days) g 0 ltac:(lia) ltac:(lia)) as (Hlen & _).
    rewrite hd_nth_0. exact Hlen. }
  rewrite Hn.
  assert (Hcol0 : getitem_col price_paths 0 =
                  repeat initial_price (Z.to_nat sims)).
  { rewrite Hpaths. apply getitem_col_0_paths_of. lia. }
  set (n := Z.to_nat days) in *.
  set (upper := map _ (seq 0 n)).
  set (lower := map _ (seq 0 n)).
  assert (Hu : length upper = n)
    by (unfold upper; rewrite length_map, length_seq; reflexivity).
  assert (Hl : length lower = n)
    by (unfold lower; rewrite length_map, length_seq; reflexivity).
  assert (Hn1 : (1 <= n)%nat) by (unfold n; lia).
  rewrite (app_nth1 upper (rev lower) 0 (n := 0%nat)) by lia.
  rewrite (app_nth2 upper (rev lower) 0 (n := (2 * n - 1)%nat)) by lia.
  rewrite Hu. rewrite rev_nth by lia. rewrite Hl.
  replace (n - S (2 * n - 1 - n))%nat with 0%nat by lia.
  unfold upper, lower, np_median_axis0. rewrite Hn. fold n.
  rewrite !(nth_map_lt _ _ _ _ 0%nat) by (rewrite length_seq; lia).
  rewrite seq_nth by lia. cbn [Nat.add].
  rewrite Hcol0.
  assert (Hsims : (1 <= Z.to_nat sims)%nat) by lia.
  rewrite np_median_R by (destruct (Z.to_nat sims); [lia|discriminate]).
  rewrite np_sort_repeat, median_repeat by exact Hsims.
  rewrite !percentile_linear_repeat by (auto; lra).
  auto.
Qed.

End FigureExact.

(** ** The driver *)

Section DriverProperties.

Context {F G : Type} `{Arith F} `{Libm F} `{RandomState F G}.

Variable fetch_ohlcv : string -> result (list (candle F)).
Variable end_date : Z.
Variable fillcolor_of : string -> result string.

Lemma process_outputs (a : asset) (g : G) :
  fst (process fetch_ohlcv end_date fillcolor_of a g) <> [] /\
  Forall (fun o => crypto_of o = asset_name a)
         (fst (process fetch_ohlcv end_date fillcolor_of a g)).
Proof.
  unfold process.
  destruct (fetch_crypto_data_ohlcv _ _ _) as [[[p mu] sigma]|e].
  - destruct (simulate_crypto_prices _ _ _ _ _ _)
      as [[[[[pp m] lo] hi]|e] g'].
    + destruct (plot_crypto_forecast _ _ _ _) as [traces|e];
        (split; [discriminate|repeat constructor]).
    + split; [discriminate|repeat constructor].
  - split; [discriminate|repeat constructor].
Qed.


Lemma process_all_blocks (assets : list asset) (g : G) :
  exists blocks,
    fst (process_all fetch_ohlcv end_date fillcolor_of assets g) =
    concat blocks /\
    Forall2 (fun a block =>
               block <> [] /\
               Forall (fun o => crypto_of o = asset_name a) block)
            assets blocks.
Proof.
  revert g; induction assets as [|a assets IH]; intros g.
  - exists []. split; [reflexivity|constructor].
  - cbn [process_all].
    pose proof (process_outputs a g) as Hout.
    destruct (process fetch_ohlcv end_date fillcolor_of a g) as [o g1].
    destruct (IH g1) as (blocks & Hcat & Hall).
    destruct (process_all _ _ _ assets g1) as [os g2].
    cbn [fst] in *. exists (o :: blocks). split.
    + cbn [concat]. rewrite Hcat. reflexivity.
    + constructor; assumption.
Qed.

(** X20: whatever the exchange answers and whatever fails, the driver
    puts out something for each of the four assets, in the order of
    [crypto_data]: its output is four blocks, none of them empty, the
    first about BTC, then ETH, SOL and BNB. *)
Theorem main_reports_on_every_asset_in_order (g : G) :
  exists btc eth sol bnb,
    fst (main fetch_ohlcv end_date fillcolor_of g) =
    btc ++ eth ++ sol ++ bnb /\
    (btc <> [] /\ Forall (fun o => crypto_of o = "BTC") btc) /\
    (eth <> [] /\ Forall (fun o => crypto_of o = "ETH") eth) /\
    (sol <> [] /\ Forall (fun o => crypto_of o = "SOL") sol) /\
    (bnb <> [] /\ Forall (fun o => crypto_of o = "BNB") bnb).
Proof.
  destruct (process_all_blocks crypto_data g) as (blocks & Hcat & Hall).
  unfold crypto_data in Hall.
  inversion Hall as [|a1 b1 l1 bs1 Hb1 Hall1]; subst.
  inversion Hall1 as [|a2 b2 l2 bs2 Hb2 Hall2]; subst.
  inversion Hall2 as [|a3 b3 l3 bs3 Hb3 Hall3]; subst.
  inversion Hall3 as [|a4 b4 l4 bs4 Hb4 Hall4]; subst.
  inversion Hall4; subst.
  exists b1, b2, b3, b4. split.
  - unfold main. rewrite Hcat. cbn [concat]. rewrite app_nil_r.
    reflexivity.
  - auto.
Qed.



End DriverProperties.

Section DriverExact.

Context {G : Type} `{RandomState R G}.

Variable fetch_ohlcv : string -> result (list (candle R)).
Variable end_date : Z.
Variable fillcolor_of : string -> result string.

Local Open Scope R_scope.

Lemma fetch_crypto_data_ohlcv_returned (ticker : string)
      (answer : result (list (candle R))) (p mu sigma : R) :
  fetch_crypto_data_ohlcv ticker end_date answer = Ok (p, mu, sigma) ->
  exists close, fetch_crypto_data ticker close = Ok (p, mu, sigma).
Proof.
  unfold fetch_crypto_data_ohlcv.
  destruct answer as [[|k ohlcv]|e]; cbn [bindr try_exceptr];
    try discriminate.
  eauto.
Qed.

Lemma plot_crypto_forecast_fillcolor_fails
      (price_paths : ndarray2 R) (crypto_name color : string) (e : exn) :
  (100 <= length price_paths)%nat ->
  fillcolor_of color = Raise e ->
  plot_crypto_forecast fillcolor_of price_paths crypto_name color = Raise e.
Proof.
  intros Hlen Hfill.
  assert (Hne : price_paths <> [])
    by (destruct price_paths; [simpl in Hlen; lia|discriminate]).
  unfold plot_crypto_forecast.
  change (Z.to_nat (Z.min 100 N_SIMS)) with 100%nat.
  rewrite path_traces_seq_ok by lia. cbn [bindr].
  rewrite !np_percentile_axis0_ok by exact Hne. cbn [bindr].
  rewrite Hfill. reflexivity.
Qed.

(** X22: in the driver the simulation cannot fail on parameters that the
    estimate has returned: the asset gets its forecast printed, with the
    median inside the interval, the generator advances by
    [N_SIMS * FORECAST_DAYS] variates, and the figure follows, with its
    102 traces, unless Python refuses the colour, which puts the line
    [Error processing] after the forecast (exact arithmetic). *)
Theorem estimated_asset_gets_its_forecast
        (a : asset) (initial_price mu sigma : R) (g : G) :
  fetch_crypto_data_ohlcv (asset_ticker a) end_date
                          (fetch_ohlcv (asset_ticker a)) =
  Ok (initial_price, mu, sigma) ->
  exists med_price ci_low ci_high shown,
    process fetch_ohlcv end_date fillcolor_of a g =
    ([Forecast (asset_name a) initial_price med_price ci_low ci_high
               mu sigma; shown],
     advance (Z.to_nat N_SIMS * Z.to_nat FORECAST_DAYS) g) /\
    ci_low <= med_price <= ci_high /\
    (forall fillcolor,
        fillcolor_of (asset_color a) = Ok fillcolor ->
        exists traces,
          shown = Figure (asset_name a) traces /\
          length traces = 102%nat) /\
    (forall e,
        fillcolor_of (asset_color a) = Raise e ->
        shown = ErrorProcessing (asset_name a) (msg e)).
Proof.
  intros Hfetch.
  destruct (fetch_crypto_data_ohlcv_returned _ _ _ _ _ Hfetch)
    as [close Hest].
  destruct (fetch_crypto_data_returned _ _ _ _ _ Hest) as (_ & _ & Hsigma).
  assert (Hnonneg : 0 <= sigma).
  { rewrite Hsigma. cbn [fmul fsqrt of_int R_Arith].
    apply Rmult_le_pos; [apply series_std_nonneg|apply sqrt_pos]. }
  assert (Hd : (1 <= FORECAST_DAYS)%Z) by (unfold FORECAST_DAYS; lia).
  assert (Hs : (1 <= N_SIMS)%Z) by (unfold N_SIMS; lia).
  destruct (simulate_crypto_prices_returns initial_price mu sigma
              FORECAST_DAYS N_SIMS g Hd Hs
              (draw_scale_accepted sigma Hnonneg))
    as (m & lo & hi & _ & Hcall).
  destruct (simulate_crypto_prices_statistics _ _ _ _ _ _ _ _ _ _ _ Hcall)
    as (Hn & _ & Hm & Hlo & Hhi).
  pose proof (statistics_ordered _ (np_sort_sorted _) Hn) as Hord.
  rewrite <- Hm, <- Hlo, <- Hhi in Hord.
  set (pp := paths_of initial_price mu sigma (Z.to_nat N_SIMS)
                      (Z.to_nat FORECAST_DAYS) g) in *.
  assert (Hrows : (100 <= length pp)%nat).
  { unfold pp. rewrite length_paths_of. unfold N_SIMS. lia. }
  clearbody pp.
  unfold process. rewrite Hfetch, Hcall.
  destruct (fillcolor_of (asset_color a)) as [fill|e] eqn:Hfill.
  - rewrite (plot_crypto_forecast_ok _ _ _ _ _ Hrows Hfill).
    eexists m, lo, hi, _. split; [reflexivity|].
    split; [exact Hord|]. split.
    + intros fill' _. eexists. split; [reflexivity|].
      rewrite length_app, length_map, length_firstn.
      rewrite Nat.min_l by exact Hrows. reflexivity.
    + intros e He. discriminate.
  - rewrite (plot_crypto_forecast_fillcolor_fails _ _ _ _ Hrows Hfill).
    eexists m, lo, hi, _. split; [reflexivity|].
    split; [exact Hord|]. split.
    + intros fill Hf. discriminate.
    + intros e' [= <-]. reflexivity.
Qed.

End DriverExact.

(** * The further properties at concrete inputs *)

Section FurtherConcrete.

Local Open Scope R_scope.

(** X1 at the empty series, in binary64. *)
Lemma estimate_short_series_raises_witness :
  fetch_crypto_data "BTC/USDT" ([] : list float) =
  Raise (insufficient_data "BTC/USDT").
Proof.
  apply (estimate_short_series_raises (F := float) "BTC/USDT" []).
  simpl. lia.
Defined.


(** X3 at the series 100, 110, 121, 100. *)
Lemma estimate_returns_valid_parameters_witness :
  (3 <= length [100; 110; 121; 100])%nat /\
  last [100; 110; 121; 100] 0 = last [100; 110; 121; 100] 0 /\
  0 < last [100; 110; 121; 100] 0 /\
  0 <= series_std (dropna (pct_change [100; 110; 121; 100]))
       * R_sqrt.sqrt 365.
Proof.
  apply (estimate_returns_valid_parameters
           "BTC/USDT" [100; 110; 121; 100]
           (last [100; 110; 121; 100] 0)
           (series_mean (dropna (pct_change [100; 110; 121; 100])) * 365)).
  apply fetch_crypto_data_R.
  - simpl. lia.
  - simpl. lra.
Defined.

(** X4 at the series 100, 110, 121, 100 and the factor 2. *)
Lemma estimate_scale_invariant_witness :
  exists mu sigma,
    fetch_crypto_data "BTC/USDT" [100; 110; 121; 100] =
    Ok (last [100; 110; 121; 100] 0, mu, sigma) /\
    fetch_crypto_data "BTC/USDT" (map (Rmult 2) [100; 110; 121; 100]) =
    Ok (2 * last [100; 110; 121; 100] 0, mu, sigma).
Proof.
  apply (estimate_scale_invariant "BTC/USDT" 2 [100; 110; 121; 100]).
  - lra.
  - simpl. lia.
  - repeat constructor; lra.
Defined.

(** X5 at three days and two paths: six variates are taken off a tape
    of seven. *)
Lemma simulate_consumes_one_variate_per_entry_witness :
  snd (simulate_crypto_prices 100 (1 / 2) (4 / 5) 3 2
                              [1; 2; 3; 4; 5; 6; 7]) =
  advance (Z.to_nat 2 * Z.to_nat 3) [1; 2; 3; 4; 5; 6; 7].
Proof.
  refine (simulate_consumes_one_variate_per_entry (F := R) (G := list R)
            100 (1 / 2) (4 / 5) 3 2 [1; 2; 3; 4; 5; 6; 7] _ _ _).
  - lia.
  - lia.
  - apply draw_scale_accepted. lra.
Defined.

(** X6 at two tapes that differ at the positions 0 and 3, the draws of
    column 0 of an array of two paths and three days. *)
Lemma simulate_ignores_draws_of_first_column_witness :
  fst (simulate_crypto_prices 100 (1 / 2) (4 / 5) 3 2
                              [9; 2; 3; 8; 5; 6]) =
  fst (simulate_crypto_prices 100 (1 / 2) (4 / 5) 3 2
                              [1; 2; 3; 4; 5; 6]).
Proof.
  apply (simulate_ignores_draws_of_first_column (F := R) (G := list R)
           100 (1 / 2) (4 / 5) 3 2 [9; 2; 3; 8; 5; 6] [1; 2; 3; 4; 5; 6]).
  intros i t Hi Ht.
  change (Z.to_nat 2) with 2%nat in Hi.
  change (Z.to_nat 3) with 3%nat in Ht |- *.
  destruct i as [|[|i]]; [| |lia];
    (destruct t as [|[|[|t]]]; [lia|reflexivity|reflexivity|lia]).
Defined.

(** X7 at three days and two paths. *)
Lemma simulate_price_is_exponential_of_summed_draws_witness :
  exists price_paths median_price ci_lower ci_upper,
    fst (simulate_crypto_prices 100 (1 / 2) (4 / 5) 3 2
                                [1; 2; 3; 4; 5; 6]) =
    Ok (price_paths, median_price, ci_lower, ci_upper) /\
    forall i t, (i < Z.to_nat 2)%nat -> (t < Z.to_nat 3)%nat ->
      nth t (nth i price_paths []) 0 =
      100 * exp (Stats.Rsum
                   (map (normal_draw (1 / 2 * dt) (4 / 5 * R_sqrt.sqrt dt)
                                     [1; 2; 3; 4; 5; 6] (Z.to_nat 3) i)
                        (seq 1 t))).
Proof.
  apply (simulate_price_is_exponential_of_summed_draws (G := list R)
           100 (1 / 2) (4 / 5) 3 2 [1; 2; 3; 4; 5; 6]).
  - lra.
  - lia.
  - lia.
Defined.

(** X8 at a drift of 1/2, 30 days and 1000 paths. *)
Lemma simulate_zero_volatility_is_exponential_growth_witness :
  exists price_paths median_price ci_lower ci_upper,
    fst (simulate_crypto_prices 100 (1 / 2) 0 30 1000 [1; 2; 3]) =
    Ok (price_paths, median_price, ci_lower, ci_upper) /\
    forall i t, (i < Z.to_nat 1000)%nat -> (t < Z.to_nat 30)%nat ->
      nth t (nth i price_paths []) 0 = 100 * exp (1 / 2 * dt * INR t).
Proof.
  apply (simulate_zero_volatility_is_exponential_growth (G := list R)
           100 (1 / 2) 30 1000 [1; 2; 3]).
  - lia.
  - lia.
Defined.

(** X9 at a volatility of -1. *)
Lemma simulate_negative_volatility_raises_witness :
  simulate_crypto_prices 100 0 (-1) 30 1000 [1; 2; 3] =
  (Raise (Exception ("Error in simulate_crypto_prices: " ++ "scale < 0")),
   [1; 2; 3]).
Proof.
  apply (simulate_negative_volatility_raises (G := list R)
           100 0 (-1) 30 1000 [1; 2; 3]).
  lra.
Defined.

(** X10 at three paths. *)
Lemma simulate_one_day_is_initial_price_witness :
  fst (simulate_crypto_prices 100 (1 / 2) (4 / 5) 1 3 [1; 2; 3]) =
  Ok (repeat [100] (Z.to_nat 3), 100, 100, 100).
Proof.
  apply (simulate_one_day_is_initial_price (G := list R)
           100 (1 / 2) (4 / 5) 3 [1; 2; 3]).
  - lra.
  - lia.
Defined.

(** X11 at a call of three days and two paths, which returns. *)
Lemma simulate_interval_encloses_median_witness :
  exists price_paths median_price ci_lower ci_upper g',
    simulate_crypto_prices 100 (1 / 2) (4 / 5) 3 2 [1; 2; 3; 4; 5; 6] =
    (Ok (price_paths, median_price, ci_lower, ci_upper), g') /\
    ci_lower <= median_price <= ci_upper.
Proof.
  destruct (simulate_crypto_prices_returns (G := list R)
              100 (1 / 2) (4 / 5) 3 2 [1; 2; 3; 4; 5; 6]
              ltac:(lia) ltac:(lia)
              (draw_scale_accepted (4 / 5) ltac:(lra)))
    as (m & lo & hi & _ & Hcall).
  eexists _, m, lo, hi, _. split; [exact Hcall|].
  exact (simulate_interval_encloses_median _ _ _ _ _ _ _ _ _ _ _ Hcall).
Defined.

(** X12 at the same call. *)
Lemma simulate_statistics_positive_witness :
  exists price_paths median_price ci_lower ci_upper g',
    simulate_crypto_prices 100 (1 / 2) (4 / 5) 3 2 [1; 2; 3; 4; 5; 6] =
    (Ok (price_paths, median_price, ci_lower, ci_upper), g') /\
    0 < ci_lower /\ 0 < median_price /\ 0 < ci_upper.
Proof.
  destruct (simulate_crypto_prices_returns (G := list R)
              100 (1 / 2) (4 / 5) 3 2 [1; 2; 3; 4; 5; 6]
              ltac:(lia) ltac:(lia)
              (draw_scale_accepted (4 / 5) ltac:(lra)))
    as (m & lo & hi & _ & Hcall).
  eexists _, m, lo, hi, _. split; [exact Hcall|].
  refine (simulate_statistics_positive _ _ _ _ _ _ _ _ _ _ _ _ Hcall).
  lra.
Defined.

End FurtherConcrete.

Section FurtherConcreteFigure.

Local Open Scope R_scope.

(** X13 at three candles up to the end date and one after it. *)
Lemma ohlcv_after_end_date_is_ignored_witness :
  fetch_crypto_data_ohlcv "BTC/USDT" 3
    (Ok ([Candle 1 99 101 98 100 5; Candle 2 100 111 99 110 6;
          Candle 3 110 122 109 121 7] ++ [Candle 4 121 130 120 125 8])) =
  fetch_crypto_data_ohlcv "BTC/USDT" 3
    (Ok [Candle 1 99 101 98 100 5; Candle 2 100 111 99 110 6;
         Candle 3 110 122 109 121 7]).
Proof.
  apply (ohlcv_after_end_date_is_ignored (F := R) "BTC/USDT" 3).
  - discriminate.
  - repeat constructor.
Defined.

(** X14 at two answers that differ in the open, high, low and volume. *)
Lemma ohlcv_only_time_and_close_are_read_witness :
  fetch_crypto_data_ohlcv "BTC/USDT" 3
    (Ok [Candle 1 99 101 98 100 5; Candle 2 100 111 99 110 6;
         Candle 3 110 122 109 121 7]) =
  fetch_crypto_data_ohlcv "BTC/USDT" 3
    (Ok [Candle 1 0 0 0 100 0; Candle 2 1 1 1 110 1;
         Candle 3 2 2 2 121 2]).
Proof.
  apply (ohlcv_only_time_and_close_are_read (F := R) "BTC/USDT" 3).
  reflexivity.
Defined.

(** X15 at the empty answer and at an answer of one candle. *)
Lemma ohlcv_too_little_data_raises_witness :
  fetch_crypto_data_ohlcv "BTC/USDT" 3 (Ok ([] : list (candle R))) =
  Raise (Exception ("Error in fetch_crypto_data for " ++ "BTC/USDT" ++ ": "
                    ++ "No data fetched for " ++ "BTC/USDT")) /\
  fetch_crypto_data_ohlcv "BTC/USDT" 3 (Ok [Candle 1 99 101 98 100 5]) =
  Raise (insufficient_data "BTC/USDT").
Proof.
  split.
  - apply (proj1 (ohlcv_too_little_data_raises (F := R) "BTC/USDT" 3 [])).
    reflexivity.
  - apply (proj2 (ohlcv_too_little_data_raises (F := R) "BTC/USDT" 3
                    [Candle 1 99 101 98 100 5])).
    + discriminate.
    + simpl. lia.
Defined.



(** X18 at the same array, on its second day. *)
Lemma plot_band_encloses_median_path_witness :
  exists traces,
    plot_crypto_forecast (fun _ => Ok "rgba(255, 153, 0, 0.25)")
                         (repeat [100; 110] 100) "BTC" COLOR_BTC =
    Ok traces /\
    nth (2 * ncols (repeat [100; 110] 100) - 1 - 1)
        (scatter_y (nth 101 traces no_trace)) 0
    <= nth 1 (scatter_y (nth 100 traces no_trace)) 0
    <= nth 1 (scatter_y (nth 101 traces no_trace)) 0.
Proof.
  assert (Hlen : (100 <= length (repeat [100; 110] 100))%nat)
    by (rewrite repeat_length; lia).
  pose proof (plot_crypto_forecast_ok (F := R)
                (fun _ => Ok "rgba(255, 153, 0, 0.25)")
                (repeat [100; 110] 100) "BTC" COLOR_BTC
                "rgba(255, 153, 0, 0.25)" Hlen eq_refl) as Hplot.
  eexists. split; [exact Hplot|].
  apply (plot_band_encloses_median_path
           (fun _ => Ok "rgba(255, 153, 0, 0.25)")
           (repeat [100; 110] 100) "BTC" COLOR_BTC _ 1%nat Hplot).
  unfold ncols. simpl. lia.
Defined.

(** X19 at a call of two days and 100 paths, which returns. *)
Lemma plot_starts_at_initial_price_witness :
  exists price_paths median_price ci_lower ci_upper g' traces,
    simulate_crypto_prices 100 (1 / 2) (4 / 5) 2 100 [1; 2; 3] =
    (Ok (price_paths, median_price, ci_lower, ci_upper), g') /\
    plot_crypto_forecast (fun _ => Ok "rgba(255, 153, 0, 0.25)")
                         price_paths "BTC" COLOR_BTC = Ok traces /\
    nth 0 (scatter_y (nth 100 traces no_trace)) 0 = 100 /\
    nth 0 (scatter_y (nth 101 traces no_trace)) 0 = 100 /\
    nth (2 * Z.to_nat 2 - 1) (scatter_y (nth 101 traces no_trace)) 0 = 100.
Proof.
  destruct (simulate_crypto_prices_returns (G := list R)
              100 (1 / 2) (4 / 5) 2 100 [1; 2; 3]
              ltac:(lia) ltac:(lia)
              (draw_scale_accepted (4 / 5) ltac:(lra)))
    as (m & lo & hi & _ & Hcall).
  assert (Hlen : le 100 (length (paths_of 100 (1 / 2) (4 / 5) (Z.to_nat 100)
                                          (Z.to_nat 2) [1; 2; 3])))
    by (rewrite length_paths_of; lia).
  pose proof (plot_crypto_forecast_ok (F := R)
                (fun _ => Ok "rgba(255, 153, 0, 0.25)")
                _ "BTC" COLOR_BTC
                "rgba(255, 153, 0, 0.25)" Hlen eq_refl) as Hplot.
  eexists _, m, lo, hi, _, _.
  split; [exact Hcall|]. split; [exact Hplot|].
  exact (plot_starts_at_initial_price (G := list R)
           (fun _ => Ok "rgba(255, 153, 0, 0.25)")
           _ _ _ _ _ _ _ _ _ _ _ _ _ _ Hcall Hplot).
Defined.

End FurtherConcreteFigure.

Section FurtherConcreteDriver.

Local Open Scope R_scope.


(** X22 at an exchange that answers four candles for every ticker. *)
Lemma estimated_asset_gets_its_forecast_witness :
  exists med_price ci_low ci_high shown,
    process (fun _ => Ok [Candle 1 99 101 98 100 5;
                          Candle 2 100 111 99 110 6;
                          Candle 3 110 122 109 121 7;
                          Candle 4 121 122 99 100 8])
            4 (fun _ => Ok "rgba(255, 153, 0, 0.25)")
            (Asset "BTC" "BTC/USDT" COLOR_BTC) [1; 2; 3] =
    ([Forecast (asset_name (Asset "BTC" "BTC/USDT" COLOR_BTC))
               (last [100; 110; 121; 100] 0) med_price ci_low ci_high
               (series_mean (dropna (pct_change [100; 110; 121; 100]))
                * 365)
               (series_std (dropna (pct_change [100; 110; 121; 100]))
                * R_sqrt.sqrt 365);
      shown],
     advance (Z.to_nat N_SIMS * Z.to_nat FORECAST_DAYS) [1; 2; 3]) /\
    ci_low <= med_price <= ci_high /\
    (forall fillcolor,
        (fun _ : string => Ok "rgba(255, 153, 0, 0.25)")
          (asset_color (Asset "BTC" "BTC/USDT" COLOR_BTC)) =
        Ok fillcolor ->
        exists traces,
          shown = Figure (asset_name (Asset "BTC" "BTC/USDT" COLOR_BTC))
                         traces /\
          length traces = 102%nat) /\
    (forall e,
        (fun _ : string => Ok "rgba(255, 153, 0, 0.25)")
          (asset_color (Asset "BTC" "BTC/USDT" COLOR_BTC)) =
        Raise e ->
        shown = ErrorProcessing
                  (asset_name (Asset "BTC" "BTC/USDT" COLOR_BTC)) (msg e)).
Proof.
  apply (estimated_asset_gets_its_forecast (G := list R)
           (fun _ => Ok [Candle 1 99 101 98 100 5;
                         Candle 2 100 111 99 110 6;
                         Candle 3 110 122 109 121 7;
                         Candle 4 121 122 99 100 8])
           4 (fun _ => Ok "rgba(255, 153, 0, 0.25)")
           (Asset "BTC" "BTC/USDT" COLOR_BTC)
           (last [100; 110; 121; 100] 0)
           (series_mean (dropna (pct_change [100; 110; 121; 100])) * 365)
           (series_std (dropna (pct_change [100; 110; 121; 100]))
            * R_sqrt.sqrt 365)
           [1; 2; 3]).
  cbv beta. cbn [asset_ticker].
  rewrite fetch_crypto_data_ohlcv_cons.
  change (close_until 4 _) with [100; 110; 121; 100].
  apply fetch_crypto_data_R.
  - simpl. lia.
  - simpl. lra.
Defined.

End FurtherConcreteDriver.
